(** * Probability distributions: prometheus/distributions.pyx

    A shallow embedding of the distribution classes of
    [prometheus/distributions.pyx] and the properties of their
    fitting, copying and scoring operations.

    Numbers.  The source computes with IEEE doubles.  They are embedded
    as extended reals: a finite value is a real number and arithmetic on
    finite values is exact; the three special values (both infinities and
    not-a-number) follow the IEEE rules.  Rounding, overflow and the sign
    of zero are not represented. *)

From Stdlib Require Import Reals Lra Lia String Bool ZArith List.
Import ListNotations.
#[local] Set Warnings "-register-all".
Local Open Scope R_scope.

(** ** Doubles *)

Module Float.

Inductive double : Type :=
| Fin (r : R)
| PInf
| NInf
| NaN.

(** DEF NEGINF, INF, SQRT_2_PI *)
Definition NEGINF : double := NInf.
Definition INF : double := PInf.
Definition SQRT_2_PI : double := Fin (250662827463 / 100000000000).

Definition Rltb (x y : R) : bool := if Rlt_dec x y then true else false.
Definition Reqb (x y : R) : bool := if Req_dec_T x y then true else false.

Definition isnan (x : double) : bool :=
  match x with NaN => true | _ => false end.

(** [x < y]; every comparison with not-a-number is false. *)
Definition ltb (x y : double) : bool :=
  match x, y with
  | Fin a, Fin b => Rltb a b
  | Fin _, PInf => true
  | NInf, Fin _ => true
  | NInf, PInf => true
  | _, _ => false
  end.

(** [x == y] *)
Definition eqb (x y : double) : bool :=
  match x, y with
  | Fin a, Fin b => Reqb a b
  | PInf, PInf => true
  | NInf, NInf => true
  | _, _ => false
  end.

Definition leb (x y : double) : bool := ltb x y || eqb x y.
Definition gtb (x y : double) : bool := ltb y x.
Definition geb (x y : double) : bool := leb y x.
(** [x != y]: true on not-a-number. *)
Definition neqb (x y : double) : bool := negb (eqb x y).

Definition neg (x : double) : double :=
  match x with
  | Fin a => Fin (- a)
  | PInf => NInf
  | NInf => PInf
  | NaN => NaN
  end.

Definition add (x y : double) : double :=
  match x, y with
  | NaN, _ | _, NaN => NaN
  | Fin a, Fin b => Fin (a + b)
  | PInf, NInf | NInf, PInf => NaN
  | PInf, _ | _, PInf => PInf
  | NInf, _ | _, NInf => NInf
  end.

Definition sub (x y : double) : double := add x (neg y).

(** Infinity times a finite value: the sign of the finite value decides,
    and zero gives not-a-number. *)
Definition scale_inf (positive : bool) (a : R) : double :=
  if Rltb 0 a then (if positive then PInf else NInf)
  else if Rltb a 0 then (if positive then NInf else PInf)
  else NaN.

Definition mul (x y : double) : double :=
  match x, y with
  | NaN, _ | _, NaN => NaN
  | Fin a, Fin b => Fin (a * b)
  | PInf, Fin a | Fin a, PInf => scale_inf true a
  | NInf, Fin a | Fin a, NInf => scale_inf false a
  | PInf, PInf | NInf, NInf => PInf
  | PInf, NInf | NInf, PInf => NaN
  end.

(** IEEE division, as numpy and C perform it: a finite value over zero is
    an infinity, zero over zero is not-a-number, nothing is raised. *)
Definition div (x y : double) : double :=
  match x, y with
  | NaN, _ | _, NaN => NaN
  | Fin a, Fin b =>
      if Reqb b 0 then scale_inf true a else Fin (a / b)
  | Fin _, _ => Fin 0
  | PInf, Fin b => if Rltb b 0 then NInf else PInf
  | NInf, Fin b => if Rltb b 0 then PInf else NInf
  | _, _ => NaN
  end.

(** [x ** 2] *)
Definition sq (x : double) : double := mul x x.

(** abs *)
Definition abs (x : double) : double :=
  match x with
  | Fin a => Fin (Rabs a)
  | PInf | NInf => PInf
  | NaN => NaN
  end.

(** libc sqrt *)
Definition csqrt (x : double) : double :=
  match x with
  | Fin a => if Rltb a 0 then NaN else Fin (sqrt a)
  | PInf => PInf
  | _ => NaN
  end.

(** libc log: a pole at zero, a domain error below it. *)
Definition clog (x : double) : double :=
  match x with
  | Fin a => if Rltb 0 a then Fin (ln a) else if Rltb a 0 then NaN else NInf
  | PInf => PInf
  | _ => NaN
  end.

(** libc exp *)
Definition cexp (x : double) : double :=
  match x with
  | Fin a => Fin (exp a)
  | PInf => PInf
  | NInf => Fin 0
  | NaN => NaN
  end.

(** Modelled from the spec: [_log] is cimported from [utils], whose
    source is not part of the file.  The spec gives negative infinity for
    a category of probability zero and the logarithm of the probability
    otherwise; the helper is the logarithm guarded at zero. *)
Definition _log (x : double) : double :=
  if gtb x (Fin 0) then clog x else NEGINF.

(** A finite value or negative infinity: what a log-probability may be. *)
Definition finite_or_neginf (x : double) : Prop :=
  match x with
  | Fin _ | NInf => True
  | _ => False
  end.

Definition is_finite (x : double) : Prop :=
  match x with Fin _ => True | _ => False end.

End Float.
Export Float.

Declare Scope double_scope.
Delimit Scope double_scope with D.
Bind Scope double_scope with double.
Infix "+" := add : double_scope.
Infix "-" := sub : double_scope.
Infix "*" := mul : double_scope.
Infix "/" := div : double_scope.
Notation "- x" := (neg x) : double_scope.
Infix "<?" := ltb : double_scope.
Infix "<=?" := leb : double_scope.
Infix ">?" := gtb : double_scope.
Infix ">=?" := geb : double_scope.
Infix "=?" := eqb : double_scope.

Coercion Fin : R >-> double.

(** ** Python results *)

Inductive exn : Type :=
| NotImplementedError
| TypeError
| ValueError
| IndexError
| ZeroDivisionError.

Inductive res (A : Type) : Type :=
| Ok (a : A)
| Raise (e : exn).
Arguments Ok {A} a.
Arguments Raise {A} e.

Definition bind {A B : Type} (m : res A) (k : A -> res B) : res B :=
  match m with
  | Ok a => k a
  | Raise e => Raise e
  end.

(** How a call that updates an object ended: normally, or by raising. *)
Definition outcome : Type := option exn.

Declare Scope py_scope.
Delimit Scope py_scope with py.
Notation "x <- m ;; k" := (bind m (fun x => k))
  (at level 100, m at next level, right associativity) : py_scope.
Notation "'assert' b 'else' e ;; k" := (if b then k else Raise e)
  (at level 100, b at next level, e at next level, right associativity) : py_scope.
Local Open Scope py_scope.

(** ** Observations, weights and dictionaries *)

(** What a caller passes as one observation: a float, a categorical
    label, or a tuple with one component per dimension. *)
Inductive value : Type :=
| VNum (x : double)
| VSym (s : string)
| VTuple (l : list value).

Fixpoint value_eqb (a b : value) : bool :=
  match a, b with
  | VNum x, VNum y => eqb x y
  | VSym s, VSym t => String.eqb s t
  | VTuple l, VTuple m =>
      (fix all2 (l m : list value) : bool :=
         match l, m with
         | [], [] => true
         | x :: l', y :: m' => value_eqb x y && all2 l' m'
         | _, _ => false
         end) l m
  | _, _ => false
  end.

(** The [weights] argument: absent, a Python list, or a numpy array.  The
    two sequence kinds differ in their truth value. *)
Inductive wopt : Type :=
| WNone
| WList (l : list double)
| WArray (a : list double).

Definition is_None (w : wopt) : bool :=
  match w with WNone => true | _ => false end.

(** [if weights:] -- None is false, a list is true when non-empty, an
    array of one element has the truth value of the element, and an array
    of two or more elements has no truth value. *)
Definition truth (w : wopt) : res bool :=
  match w with
  | WNone => Ok false
  | WList l => Ok (negb (Nat.eqb (length l) 0))
  | WArray [] => Ok false
  | WArray [x] => Ok (neqb x 0)
  | WArray (_ :: _ :: _) => Raise ValueError
  end.

(** numpy.asarray( weights ) on a sequence; not reached with None. *)
Definition elements (w : wopt) : list double :=
  match w with
  | WNone => []
  | WList l | WArray l => l
  end.

(** numpy.asarray( items ) as an array of floats.  A label or a tuple in
    a numeric sample makes the arithmetic on it raise. *)
Fixpoint as_floats (items : list value) : res (list double) :=
  match items with
  | [] => Ok []
  | VNum x :: rest => xs <- as_floats rest ;; Ok (x :: xs)
  | _ :: _ => Raise TypeError
  end.

(** A dict from category to float, in insertion order. *)
Definition dict : Type := list (value * double).

Module Dict.

Fixpoint lookup (d : dict) (k : value) : option double :=
  match d with
  | [] => None
  | (k', v) :: rest => if value_eqb k' k then Some v else lookup rest k
  end.

(** d.get( k, default ) *)
Definition get (d : dict) (k : value) (default : double) : double :=
  match lookup d k with
  | Some v => v
  | None => default
  end.

(** d[k] = v *)
Fixpoint set (d : dict) (k : value) (v : double) : dict :=
  match d with
  | [] => [(k, v)]
  | (k', v') :: rest =>
      if value_eqb k' k then (k', v) :: rest else (k', v') :: set rest k v
  end.

(** try: d[k] += w / except KeyError: d[k] = w *)
Definition accumulate (d : dict) (k : value) (w : double) : dict :=
  match lookup d k with
  | Some v => set d k (v + w)%D
  | None => set d k w
  end.

(** for k, w in kws: accumulate *)
Definition accumulate_all (d : dict) (kws : list (value * double)) : dict :=
  fold_left (fun acc kw => accumulate acc (fst kw) (snd kw)) kws d.

(** for k, v in d.items(): d[k] = f(v) *)
Definition map_values (f : double -> double) (d : dict) : dict :=
  map (fun kv => (fst kv, f (snd kv))) d.

End Dict.

(** ** The numpy operations the file uses *)

Module numpy.

Definition sum (a : list double) : double := fold_left add a (Fin 0).

Fixpoint multiply (a b : list double) : list double :=
  match a, b with
  | x :: a', y :: b' => (x * y)%D :: multiply a' b'
  | _, _ => []
  end.

(** numpy.average( a, weights=w ): the shapes must agree and the weights
    must not sum to zero. *)
Definition average (a w : list double) : res double :=
  if Nat.eqb (length a) (length w) then
    let scl := sum w in
    if (scl =? 0)%D then Raise ZeroDivisionError
    else Ok (sum (multiply a w) / scl)%D
  else Raise TypeError.

Definition dot (a b : list double) : res double :=
  if Nat.eqb (length a) (length b) then Ok (sum (multiply a b))
  else Raise ValueError.

Definition ones (n : nat) : list double := repeat (Fin 1) n.

Definition ones_like {A : Type} (a : list A) : list double :=
  ones (length a).

(** a / s, a * s with a scalar s *)
Definition divide (a : list double) (s : double) : list double :=
  map (fun x => x / s)%D a.
Definition times (a : list double) (s : double) : list double :=
  map (fun x => x * s)%D a.

(** a ** 2 - s *)
Definition squares_minus (a : list double) (s : double) : list double :=
  map (fun x => sq x - s)%D a.

Definition log (a : list double) : list double := map clog a.

(** The smaller and the larger of two, not-a-number winning. *)
Definition minimum (x y : double) : double :=
  if isnan x then x else if isnan y then y else if (y <? x)%D then y else x.
Definition maximum (x y : double) : double :=
  if isnan x then x else if isnan y then y else if (y >? x)%D then y else x.

(** numpy.min / numpy.max: an empty array has no minimum. *)
Definition min (a : list double) : res double :=
  match a with
  | [] => Raise ValueError
  | x :: rest => Ok (fold_left minimum rest x)
  end.
Definition max (a : list double) : res double :=
  match a with
  | [] => Raise ValueError
  | x :: rest => Ok (fold_left maximum rest x)
  end.

(** len( a[a != 0] ) *)
Definition count_nonzero (a : list double) : nat :=
  length (filter (fun x => neqb x 0) a).

End numpy.

(** max( numpy.array([a, b]) ): the builtin keeps the first element unless
    a later one compares greater. *)
Definition max_of_pair (a b : double) : double :=
  if (b >? a)%D then b else a.

(** new = prior*inertia + fit*(1-inertia) *)
Definition blend (prior fit inertia : double) : double :=
  (prior * inertia + fit * (1 - inertia))%D.

(** [item for (item, weight) in izip(items, weights) if weight > 0] *)
Definition positive_weight_items {A : Type} (items : list A) (weights : list double)
  : list A :=
  map fst (filter (fun iw => (snd iw >? 0)%D) (combine items weights)).

(** ** Division and power outside numpy *)

(** Division of C doubles as Cython compiles it (no cdivision directive
    in the file): a zero divisor raises.  A [cdef double] function cannot
    hand the exception to its caller; the embedding keeps it as the result
    of the call. *)
Definition cdiv (x y : double) : res double :=
  if (y =? 0)%D then Raise ZeroDivisionError else Ok (x / y)%D.

(** Division of Python floats: a zero divisor raises. *)
Definition pydiv (x y : double) : res double :=
  if (y =? 0)%D then Raise ZeroDivisionError else Ok (x / y)%D.

Definition is_integer (a : R) : bool := Reqb (frac_part a) 0.
Definition is_odd_integer (a : R) : bool := is_integer a && Z.odd (Int_part a).

(** [x ** y] on Python floats.  A negative base with a fractional exponent
    has no float result (Python 2 raises ValueError, Python 3 produces a
    complex number that the conversion to a C double rejects); zero to a
    negative power raises. *)
Definition pypow (x y : double) : res double :=
  match y with
  | Fin e =>
      if Reqb e 0 then Ok (Fin 1) else
      match x with
      | NaN => Ok NaN
      | Fin b =>
          if Rltb 0 b then Ok (Fin (Rpower b e))
          else if Reqb b 0 then
            (if Rltb e 0 then Raise ZeroDivisionError else Ok (Fin 0))
          else if is_integer e then Ok (Fin (powerRZ b (Int_part e)))
          else Raise ValueError
      | PInf => Ok (if Rltb 0 e then PInf else Fin 0)
      | NInf => Ok (if Rltb 0 e
                    then (if is_odd_integer e then NInf else PInf)
                    else Fin 0)
      end
  | PInf =>
      match x with
      | NaN => Ok NaN
      | _ => Ok (if (abs x >? 1)%D then PInf
                 else if (abs x =? 1)%D then Fin 1 else Fin 0)
      end
  | NInf =>
      match x with
      | NaN => Ok NaN
      | _ => if (abs x >? 1)%D then Ok (Fin 0)
             else if (abs x =? 1)%D then Ok (Fin 1)
             else if (x =? 0)%D then Raise ZeroDivisionError
             else Ok PInf
      end
  | NaN => Ok (if (x =? 1)%D then Fin 1 else NaN)
  end.

(** A symbol received by a function whose argument is declared
    [double]. *)
Definition to_double (symbol : value) : res double :=
  match symbol with
  | VNum x => Ok x
  | _ => Raise TypeError
  end.

(** ** Distribution objects *)

(** The three kernel-density classes share their constructor and their
    fitting code word for word; they differ in the kernel. *)
Inductive kernel : Type :=
| GaussianKernel
| UniformKernel
| TriangleKernel.

(** One constructor per class, holding the attributes the class assigns:
    [parameters], [summaries] and [frozen].  The constructors of
    ExtremeValueDistribution, LambdaDistribution, MixtureDistribution and
    MultivariateDistribution never assign [summaries], which stays None.
    [name] is fixed by the class.  A mixture and a multivariate
    distribution hold their children by value: that two composites may
    share one child object is not represented. *)
Inductive Distribution : Type :=
| Uniform (parameters : double * double)
          (summaries : list (double * double)) (frozen : bool)
| Normal (parameters : double * double)
         (summaries : list (double * double * double)) (frozen : bool)
| LogNormal (parameters : double * double)
            (summaries : list (double * double * double)) (frozen : bool)
| ExtremeValue (parameters : double * double * double) (frozen : bool)
| Exponential (parameters : double)
              (summaries : list (double * double)) (frozen : bool)
| Discrete (parameters : dict) (summaries : dict * double) (frozen : bool)
| Lambda (parameters : value -> res double) (frozen : bool)
| KernelDensity (shape : kernel)
                (parameters : list double * double * list double)
                (summaries : option (list value * wopt)) (frozen : bool)
| Mixture (distributions : list Distribution) (weights : list double)
          (frozen : bool)
| Multivariate (distributions : list Distribution) (weights : list double)
               (frozen : bool).

(** [self.parameters], the ordered list of a variant's parameters. *)
Inductive params : Type :=
| Floats (l : list double)
| Characters (d : dict)
| Function (f : value -> res double)
| Points (points : list double) (bandwidth : double) (weights : list double)
| Children (distributions : list Distribution) (weights : list double).

Definition parameters (self : Distribution) : params :=
  match self with
  | Uniform (a, b) _ _ => Floats [a; b]
  | Normal (mu, sigma) _ _ => Floats [mu; sigma]
  | LogNormal (mu, sigma) _ _ => Floats [mu; sigma]
  | ExtremeValue (mu, sigma, epsilon) _ => Floats [mu; sigma; epsilon]
  | Exponential rate _ _ => Floats [rate]
  | Discrete characters _ _ => Characters characters
  | Lambda f _ => Function f
  | KernelDensity _ (points, bandwidth, weights) _ _ =>
      Points points bandwidth weights
  | Mixture ds w _ => Children ds w
  | Multivariate ds w _ => Children ds w
  end.

Definition frozen (self : Distribution) : bool :=
  match self with
  | Uniform _ _ f | Normal _ _ f | LogNormal _ _ f | ExtremeValue _ f
  | Exponential _ _ f | Discrete _ _ f | Lambda _ f
  | KernelDensity _ _ _ f | Mixture _ _ f | Multivariate _ _ f => f
  end.

Definition name (self : Distribution) : string :=
  match self with
  | Uniform _ _ _ => "UniformDistribution"
  | Normal _ _ _ => "NormalDistribution"
  | LogNormal _ _ _ => "LogNormalDistribution"
  | ExtremeValue _ _ => "ExtremeValueDistribution"
  | Exponential _ _ _ => "ExponentialDistribution"
  | Discrete _ _ _ => "DiscreteDistribution"
  | Lambda _ _ => "LambdaDistribution"
  | KernelDensity GaussianKernel _ _ _ => "GaussianKernelDensity"
  | KernelDensity UniformKernel _ _ _ => "UniformKernelDensity"
  | KernelDensity TriangleKernel _ _ _ => "TriangleKernelDensity"
  | Mixture _ _ _ => "MixtureDistribution"
  | Multivariate _ _ _ => "MultivariateDistribution"
  end%string.

(** Distribution.freeze / Distribution.thaw *)
Definition set_frozen (b : bool) (self : Distribution) : Distribution :=
  match self with
  | Uniform p s _ => Uniform p s b
  | Normal p s _ => Normal p s b
  | LogNormal p s _ => LogNormal p s b
  | ExtremeValue p _ => ExtremeValue p b
  | Exponential p s _ => Exponential p s b
  | Discrete p s _ => Discrete p s b
  | Lambda p _ => Lambda p b
  | KernelDensity k p s _ => KernelDensity k p s b
  | Mixture ds w _ => Mixture ds w b
  | Multivariate ds w _ => Multivariate ds w b
  end.

Definition freeze (self : Distribution) : Distribution := set_frozen true self.
Definition thaw (self : Distribution) : Distribution := set_frozen false self.

(** A keyword argument left out takes its default. *)
Definition default {A : Type} (d : A) (o : option A) : A :=
  match o with
  | Some a => a
  | None => d
  end.

(** ** class Distribution *)

Module Base.

(** Distribution.from_sample( self, items, weights=None ) *)
Definition from_sample (frozen : bool) : res unit :=
  if frozen then Ok tt else Raise NotImplementedError.

(** Distribution.summarize( self, items, weights=None ): [summaries] is
    either [[]] or [[items, weights]]. *)
Definition summarize (summaries : option (list value * wopt))
    (items : list value) (weights : wopt) : res (option (list value * wopt)) :=
  match summaries with
  | None => Ok (Some (items, weights))
  | Some (prior_items, prior_weights) =>
      let items := prior_items ++ items in
      if is_None weights then Ok (Some (items, weights))
      else if is_None prior_weights then Raise ValueError
      else Ok (Some (items, WArray (elements prior_weights ++ elements weights)))
  end.

End Base.

(** ** class UniformDistribution *)

Module UniformDistribution.

Definition __init__ (start end_ : double) (frozen : option bool) : Distribution :=
  Uniform (start, end_) [] (default false frozen).

Definition _log_probability (a b symbol : double) : res double :=
  if (symbol =? a)%D && (symbol =? b)%D then Ok (Fin 0)
  else if (symbol >=? a)%D && (symbol <=? b)%D then
    q <- cdiv 1 (b - a) ;; Ok (_log q)
  else Ok NEGINF.

Definition log_probability (parameters : double * double) (symbol : value)
  : res double :=
  x <- to_double symbol ;;
  _log_probability (fst parameters) (snd parameters) x.

Definition from_sample (parameters : double * double) (frozen : bool)
    (items : list value) (weights : wopt) (inertia : double)
  : res (double * double) :=
  if frozen then Ok parameters else
  let items :=
    if is_None weights then items
    else positive_weight_items items (elements weights) in
  if Nat.eqb (length items) 0 then Ok parameters else
  xs <- as_floats items ;;
  lo <- numpy.min xs ;;
  hi <- numpy.max xs ;;
  let '(prior_min, prior_max) := parameters in
  Ok (blend prior_min lo inertia, blend prior_max hi inertia).

Definition summarize (summaries : list (double * double))
    (items : list value) (weights : wopt) : res (list (double * double)) :=
  let items :=
    if is_None weights then items
    else positive_weight_items items (elements weights) in
  if Nat.eqb (length items) 0 then Ok summaries else
  xs <- as_floats items ;;
  lo <- numpy.min xs ;;
  hi <- numpy.max xs ;;
  Ok (summaries ++ [(lo, hi)]).

(** [summaries[:,0]] of an empty list of summaries is an indexing error. *)
Definition from_summaries (parameters : double * double)
    (summaries : list (double * double)) (frozen : bool) (inertia : double)
  : res ((double * double) * list (double * double)) :=
  if frozen then Ok (parameters, summaries) else
  match summaries with
  | [] => Raise IndexError
  | _ :: _ =>
      let '(prior_min, prior_max) := parameters in
      lo <- numpy.min (map fst summaries) ;;
      hi <- numpy.max (map snd summaries) ;;
      Ok ((blend prior_min lo inertia, blend prior_max hi inertia), [])
  end.

End UniformDistribution.

(** ** class NormalDistribution *)

(** Shared by the Normal and LogNormal fits, which differ in the sample
    they average ([items] or [numpy.log(items)]): the text from the weighted
    mean to the blended parameters. *)
Definition fit_mean_std (parameters : double * double) (xs ws : list double)
    (inertia min_std : double) : res (double * double) :=
  mean <- numpy.average xs ws ;;
  std <- (if Nat.ltb 1 (numpy.count_nonzero ws) then
            d <- numpy.dot (numpy.squares_minus xs (sq mean)) ws ;;
            let variance := (d / numpy.sum ws)%D in
            Ok (if (variance >=? 0)%D then csqrt variance else Fin 0)
          else Ok (snd parameters)) ;;
  let std := max_of_pair std min_std in
  let '(prior_mean, prior_std) := parameters in
  Ok (blend prior_mean mean inertia, blend prior_std std inertia).

(** One batch summary [[ mean, variance, weights.sum() ]]. *)
Definition batch_summary (xs ws : list double) : res (double * double * double) :=
  mean <- numpy.average xs ws ;;
  d <- numpy.dot (numpy.squares_minus xs (sq mean)) ws ;;
  let variance := (d / numpy.sum ws)%D in
  Ok (mean, variance, numpy.sum ws).

(** Shared by both from_summaries: merge the batch summaries. *)
Definition merge_summaries (parameters : double * double)
    (summaries : list (double * double * double)) (inertia : double)
  : res (double * double) :=
  let means := map (fun s => fst (fst s)) summaries in
  let wsums := map snd summaries in
  mean <- numpy.average means wsums ;;
  let variance :=
    (numpy.sum (map (fun s => let '(m, v, w) := s in (v + sq m) * w) summaries)
       / numpy.sum wsums - sq mean)%D in
  let std := if (variance >=? 0)%D then csqrt variance else Fin 0 in
  let '(prior_mean, prior_std) := parameters in
  Ok (blend prior_mean mean inertia, blend prior_std std inertia).

Module NormalDistribution.

Definition __init__ (mean std : double) (frozen : option bool) : Distribution :=
  Normal (mean, std) [] (default false frozen).

Definition _log_probability (parameters : double * double)
    (symbol epsilon : double) : res double :=
  let '(mu, sigma) := parameters in
  if (sigma =? 0)%D then
    if (abs (symbol - mu) <? epsilon)%D then Ok (Fin 0) else Ok NEGINF
  else
    a <- cdiv 1 (sigma * SQRT_2_PI) ;;
    b <- cdiv (sq (symbol - mu)) (2 * sq sigma) ;;
    Ok (_log a - b)%D.

Definition log_probability (parameters : double * double) (symbol : value)
    (epsilon : option double) : res double :=
  x <- to_double symbol ;;
  _log_probability parameters x (default (Fin (1 / 10000)) epsilon).

Definition from_sample (parameters : double * double) (frozen : bool)
    (items : list value) (weights : wopt) (inertia min_std : double)
  : res (double * double) :=
  if Nat.eqb (length items) 0 || frozen then Ok parameters else
  let ws := if is_None weights then numpy.ones_like items else elements weights in
  if (numpy.sum ws =? 0)%D then Ok parameters else
  xs <- as_floats items ;;
  fit_mean_std parameters xs ws inertia min_std.

(** [numpy.sum( None )] is None, which is not equal to 0. *)
Definition summarize (summaries : list (double * double * double))
    (items : list value) (weights : wopt)
  : res (list (double * double * double)) :=
  if negb (is_None weights) && (numpy.sum (elements weights) =? 0)%D
  then Ok summaries else
  xs <- as_floats items ;;
  let ws := if is_None weights then numpy.ones_like xs else elements weights in
  s <- batch_summary xs ws ;;
  Ok (summaries ++ [s]).

Definition from_summaries (parameters : double * double)
    (summaries : list (double * double * double)) (frozen : bool)
    (inertia : double)
  : res ((double * double) * list (double * double * double)) :=
  if Nat.eqb (length summaries) 0 || frozen then Ok (parameters, summaries) else
  p <- merge_summaries parameters summaries inertia ;;
  Ok (p, []).

End NormalDistribution.

(** ** class LogNormalDistribution *)

Module LogNormalDistribution.

Definition __init__ (mu sigma : double) (frozen : option bool) : Distribution :=
  LogNormal (mu, sigma) [] (default false frozen).

(** [mu] and [sigma] are Python objects here, so the quotient is a Python
    division. *)
Definition _log_probability (parameters : double * double) (symbol : double)
  : res double :=
  let '(mu, sigma) := parameters in
  q <- pydiv (clog symbol - mu) sigma ;;
  Ok (- clog (symbol * sigma * SQRT_2_PI) - Fin (1 / 2) * sq q)%D.

Definition log_probability (parameters : double * double) (symbol : value)
  : res double :=
  x <- to_double symbol ;;
  _log_probability parameters x.

Definition from_sample (parameters : double * double) (frozen : bool)
    (items : list value) (weights : wopt) (inertia min_std : double)
  : res (double * double) :=
  if Nat.eqb (length items) 0 || frozen then Ok parameters else
  let ws := if is_None weights then numpy.ones_like items else elements weights in
  if (numpy.sum ws =? 0)%D then Ok parameters else
  xs <- as_floats items ;;
  fit_mean_std parameters (numpy.log xs) ws inertia min_std.

Definition summarize (summaries : list (double * double * double))
    (items : list value) (weights : wopt)
  : res (list (double * double * double)) :=
  let ws := if is_None weights then numpy.ones_like items else elements weights in
  xs <- as_floats items ;;
  s <- batch_summary (numpy.log xs) ws ;;
  Ok (summaries ++ [s]).

Definition from_summaries (parameters : double * double)
    (summaries : list (double * double * double)) (frozen : bool)
    (inertia : double)
  : res ((double * double) * list (double * double * double)) :=
  if Nat.eqb (length summaries) 0 || frozen then Ok (parameters, summaries) else
  p <- merge_summaries parameters summaries inertia ;;
  Ok (p, []).

End LogNormalDistribution.

(** ** class ExtremeValueDistribution *)

Module ExtremeValueDistribution.

Definition __init__ (mu sigma epsilon : double) (frozen : option bool)
  : Distribution :=
  ExtremeValue (mu, sigma, epsilon) (default true frozen).

Definition _log_probability (parameters : double * double * double)
    (symbol : double) : res double :=
  let '(mu, sigma, epsilon) := parameters in
  t <- pydiv (symbol - mu) sigma ;;
  if (epsilon =? 0)%D then Ok (- clog sigma - t - cexp (- t))%D
  else
    e <- pydiv (- (1)) epsilon ;;
    p <- pypow (1 + epsilon * t) e ;;
    Ok (- clog sigma + clog (1 + epsilon * t) * (e - 1) - p)%D.

Definition log_probability (parameters : double * double * double)
    (symbol : value) : res double :=
  x <- to_double symbol ;;
  _log_probability parameters x.

End ExtremeValueDistribution.

(** ** class ExponentialDistribution *)

Module ExponentialDistribution.

Definition __init__ (rate : double) (frozen : option bool) : Distribution :=
  Exponential rate [] (default false frozen).

Definition log_probability (rate : double) (symbol : value) : res double :=
  x <- to_double symbol ;;
  Ok (_log rate - rate * x)%D.

Definition from_sample (prior_rate : double) (frozen : bool)
    (items : list value) (weights : wopt) (inertia : double) : res double :=
  if Nat.eqb (length items) 0 || frozen then Ok prior_rate else
  let ws := if is_None weights then numpy.ones_like items else elements weights in
  if (numpy.sum ws =? 0)%D then Ok prior_rate else
  xs <- as_floats items ;;
  weighted_mean <- numpy.average xs ws ;;
  let rate := (1 / weighted_mean)%D in
  Ok (blend prior_rate rate inertia).

Definition summarize (summaries : list (double * double))
    (items : list value) (weights : wopt) : res (list (double * double)) :=
  xs <- as_floats items ;;
  let ws := if is_None weights then numpy.ones_like xs else elements weights in
  mean <- numpy.average xs ws ;;
  Ok (summaries ++ [(mean, numpy.sum ws)]).

Definition from_summaries (prior_rate : double)
    (summaries : list (double * double)) (frozen : bool) (inertia : double)
  : res (double * list (double * double)) :=
  if Nat.eqb (length summaries) 0 || frozen then Ok (prior_rate, summaries) else
  mean <- numpy.average (map fst summaries) (map snd summaries) ;;
  let rate := (1 / mean)%D in
  Ok (blend prior_rate rate inertia, []).

End ExponentialDistribution.

(** ** class DiscreteDistribution *)

Module DiscreteDistribution.

(** [self.summaries = [ {}, 0 ]] *)
Definition empty_summaries : dict * double := ([], Fin 0).

Definition __init__ (characters : dict) (frozen : option bool) : Distribution :=
  Discrete characters empty_summaries (default false frozen).

Definition log_probability (characters : dict) (symbol : value) : double :=
  _log (Dict.get characters symbol 0).

Definition from_sample (prior_characters : dict) (frozen : bool)
    (items : list value) (weights : wopt) (inertia : double) : dict :=
  if Nat.eqb (length items) 0 || frozen then prior_characters else
  let n := length items in
  let weights :=
    if is_None weights then numpy.divide (numpy.ones n) (Fin (INR n))
    else numpy.divide (elements weights) (numpy.sum (elements weights)) in
  let characters := Dict.accumulate_all [] (combine items weights) in
  let characters := Dict.map_values (fun weight => weight * (1 - inertia))%D characters in
  Dict.accumulate_all characters
    (map (fun cw => (fst cw, (snd cw * inertia)%D)) prior_characters).

Definition summarize (summaries : dict * double)
    (items : list value) (weights : wopt) : dict * double :=
  let n := length items in
  let weights := if is_None weights then numpy.ones n else elements weights in
  let characters := Dict.accumulate_all (fst summaries) (combine items weights) in
  (characters, (snd summaries + numpy.sum weights)%D).

(** [len( self.summaries )] is 2 in every state the class reaches, so the
    first disjunct of the guard is never true. *)
Definition from_summaries (prior_characters : dict) (summaries : dict * double)
    (frozen : bool) (inertia : double) : dict * (dict * double) :=
  if Nat.eqb 2 0 || frozen then (prior_characters, summaries) else
  let '(characters, total_weight) := summaries in
  let characters :=
    Dict.map_values (fun prob => (prob / total_weight) * (1 - inertia))%D characters in
  let characters :=
    if (inertia >? 0)%D then
      Dict.accumulate_all characters
        (map (fun cw => (fst cw, (snd cw * inertia)%D)) prior_characters)
    else characters in
  (characters, empty_summaries).

End DiscreteDistribution.

(** ** class LambdaDistribution *)

Module LambdaDistribution.

Definition __init__ (lambda_funct : value -> res double) (frozen : option bool)
  : Distribution :=
  Lambda lambda_funct (default true frozen).

Definition log_probability (lambda_funct : value -> res double) (symbol : value)
  : res double :=
  lambda_funct symbol.

End LambdaDistribution.

(** ** The kernel densities *)

Module KernelDensity.

(** The weights of a constructor or of from_sample: normalised when the
    argument is true, uniform otherwise. *)
Definition normalise (n : nat) (weights : wopt) : res (list double) :=
  given <- truth weights ;;
  if given then Ok (numpy.divide (elements weights) (numpy.sum (elements weights)))
  else Ok (numpy.divide (numpy.ones n) (Fin (INR n))).

(** GaussianKernelDensity.__init__, UniformKernelDensity.__init__,
    TriangleKernelDensity.__init__( points, bandwidth=1, weights=None,
    frozen=False ) *)
Definition __init__ (shape : kernel) (points : list double)
    (bandwidth : option double) (weights : wopt) (frozen : option bool)
  : res Distribution :=
  let n := length points in
  weights <- normalise n weights ;;
  Ok (KernelDensity shape (points, default (Fin 1) bandwidth, weights) None
        (default false frozen)).

(** The contribution of one stored point. *)
Definition point_prob (shape : kernel) (bandwidth mu symbol : double)
  : res double :=
  match shape with
  | GaussianKernel =>
      let scalar := (1 / SQRT_2_PI)%D in
      z <- cdiv (mu - symbol) bandwidth ;;
      Ok (scalar * cexp (- Fin (1 / 2) * sq z))%D
  | UniformKernel =>
      Ok (if (abs (mu - symbol) <=? bandwidth)%D then Fin 1 else Fin 0)
  | TriangleKernel =>
      let p := (bandwidth - abs (mu - symbol))%D in
      Ok (if (p <? 0)%D then Fin 0 else p)
  end.

(** The loop over the stored points: [i] runs over [len(parameters[0])]
    and indexes the weights too. *)
Fixpoint accumulate_points (shape : kernel) (bandwidth symbol : double)
    (points weights : list double) (distribution_prob : double) : res double :=
  match points with
  | [] => Ok distribution_prob
  | mu :: points' =>
      p <- point_prob shape bandwidth mu symbol ;;
      match weights with
      | [] => Raise IndexError
      | w :: weights' =>
          accumulate_points shape bandwidth symbol points' weights'
            (distribution_prob + p * w)%D
      end
  end.

Definition _log_probability (shape : kernel)
    (parameters : list double * double * list double) (symbol : double)
  : res double :=
  let '(points, bandwidth, weights) := parameters in
  total <- accumulate_points shape bandwidth symbol points weights 0 ;;
  Ok (_log total).

Definition log_probability (shape : kernel)
    (parameters : list double * double * list double) (symbol : value)
  : res double :=
  x <- to_double symbol ;;
  _log_probability shape parameters x.

(** from_sample( self, points, weights=None, inertia=0.0 ) *)
Definition from_sample (parameters : list double * double * list double)
    (frozen : bool) (points : list value) (weights : wopt) (inertia : double)
  : res (list double * double * list double) :=
  if frozen then Ok parameters else
  points <- as_floats points ;;
  let n := length points in
  weights <- normalise n weights ;;
  let '(prior_points, bandwidth, prior_weights) := parameters in
  if (inertia =? 0)%D then Ok (points, bandwidth, weights)
  else Ok (prior_points ++ points, bandwidth,
           numpy.times prior_weights inertia
             ++ numpy.times weights (1 - inertia)%D).

End KernelDensity.

(** ** class MixtureDistribution *)

Module MixtureDistribution.

Definition __init__ (distributions : list Distribution) (weights : wopt)
    (frozen : option bool) : res Distribution :=
  let n := length distributions in
  weights <- KernelDensity.normalise n weights ;;
  Ok (Mixture distributions weights (default false frozen)).

(** [len( self.parameters )], the length of [[ distributions, weights ]]. *)
Definition len_parameters : nat := 2.

Section Terms.

(** [d[i].log_probability( symbol )] *)
Variable child_log_probability : Distribution -> res double.

(** [[ cexp( d[i].log_probability(symbol) ) * w[i] for i in xrange(n) ]] *)
Fixpoint terms (d : list Distribution) (w : list double) (n : nat) {struct d}
  : res (list double) :=
  match n with
  | O => Ok []
  | S n' =>
      match d with
      | [] => Raise IndexError
      | di :: d' =>
          lp <- child_log_probability di ;;
          match w with
          | [] => Raise IndexError
          | wi :: w' =>
              rest <- terms d' w' n' ;;
              Ok ((cexp lp * wi)%D :: rest)
          end
      end
  end.

End Terms.

(** MixtureDistribution.from_sample( self, items, weights=None ) *)
Definition from_sample : res unit := Raise NotImplementedError.

End MixtureDistribution.

(** ** class MultivariateDistribution *)

Module MultivariateDistribution.

Definition __init__ (distributions : list Distribution) (weights : wopt)
    (frozen : option bool) : res Distribution :=
  let n := length distributions in
  given <- truth weights ;;
  let weights := if given then elements weights else numpy.ones n in
  Ok (Multivariate distributions weights (default false frozen)).

(** Iterating over a symbol: a tuple gives its components, a string its
    characters, a float is not iterable. *)
Definition components (symbol : value) : res (list value) :=
  match symbol with
  | VTuple l => Ok l
  | VSym s => Ok (map (fun c => VSym (String c EmptyString)) (list_ascii_of_string s))
  | VNum _ => Raise TypeError
  end.

Definition row_length (row : value) : option nat :=
  match row with
  | VTuple l => Some (length l)
  | _ => None
  end.

Fixpoint pick (i : nat) (rows : list value) : res (list value) :=
  match rows with
  | [] => Ok []
  | VTuple l :: rest =>
      match nth_error l i with
      | Some v => vs <- pick i rest ;; Ok (v :: vs)
      | None => Raise IndexError
      end
  | _ :: _ => Raise IndexError
  end.

(** [numpy.asarray( items )[:,i]]: the rows must form a two-dimensional
    array with more than [i] columns. *)
Definition column (i : nat) (items : list value) : res (list value) :=
  match items with
  | [] => Raise IndexError
  | first :: _ =>
      if forallb (fun row =>
                    match row_length row, row_length first with
                    | Some a, Some b => Nat.eqb a b
                    | _, _ => false
                    end) items
      then pick i items
      else Raise IndexError
  end.

Section Terms.

Variable child_log_probability : Distribution -> value -> res double.

(** [d.log_probability( obs )*w for d, obs, w in zip( ... )], summed by
    the builtin [sum] from 0. *)
Fixpoint weighted_sum (ds : list Distribution) (obs : list value)
    (w : list double) (acc : double) : res double :=
  match ds, obs, w with
  | d :: ds', o :: obs', wi :: w' =>
      lp <- child_log_probability d o ;;
      weighted_sum ds' obs' w' (acc + lp * wi)%D
  | _, _, _ => Ok acc
  end.

End Terms.

Section Children.

(** The call made on a child with its column: [d.from_sample( items[:,i],
    ... )] or [d.summarize( items[:,i], ... )]. *)
Variable on_column : Distribution -> list value -> Distribution * outcome.

(** [for i, d in enumerate( self.parameters[0] )]: the children are
    updated one after the other, and an exception leaves the later ones
    untouched. *)
Fixpoint each_column (i : nat) (ds : list Distribution) (items : list value)
  : list Distribution * outcome :=
  match ds with
  | [] => ([], None)
  | d :: rest =>
      match column i items with
      | Raise e => (ds, Some e)
      | Ok col =>
          let '(d', o) := on_column d col in
          match o with
          | Some e => (d' :: rest, Some e)
          | None =>
              let '(rest', o') := each_column (S i) rest items in
              (d' :: rest', o')
          end
      end
  end.

(** The call made on a child: [d.from_summaries( inertia=inertia )]. *)
Variable on_child : Distribution -> Distribution * outcome.

(** [for d in self.parameters[0]] *)
Fixpoint each_child (ds : list Distribution) : list Distribution * outcome :=
  match ds with
  | [] => ([], None)
  | d :: rest =>
      let '(d', o) := on_child d in
      match o with
      | Some e => (d' :: rest, Some e)
      | None =>
          let '(rest', o') := each_child rest in
          (d' :: rest', o')
      end
  end.

End Children.

End MultivariateDistribution.

(** ** Method dispatch *)

Definition returned (self : Distribution) : Distribution * outcome :=
  (self, None).
Definition raised (self : Distribution) (e : exn) : Distribution * outcome :=
  (self, Some e).

(** A method body that computes its new attribute values before it
    assigns any: on an exception the object is as before. *)
Definition commit {A : Type} (self : Distribution) (r : res A)
    (assign : A -> Distribution) : Distribution * outcome :=
  match r with
  | Ok a => (assign a, None)
  | Raise e => (self, Some e)
  end.

(** self.log_probability( symbol ) *)
Fixpoint log_probability (self : Distribution) (symbol : value) {struct self}
  : res double :=
  match self with
  | Uniform p _ _ => UniformDistribution.log_probability p symbol
  | Normal p _ _ => NormalDistribution.log_probability p symbol None
  | LogNormal p _ _ => LogNormalDistribution.log_probability p symbol
  | ExtremeValue p _ => ExtremeValueDistribution.log_probability p symbol
  | Exponential p _ _ => ExponentialDistribution.log_probability p symbol
  | Discrete p _ _ => Ok (DiscreteDistribution.log_probability p symbol)
  | Lambda p _ => LambdaDistribution.log_probability p symbol
  | KernelDensity k p _ _ => KernelDensity.log_probability k p symbol
  | Mixture d w _ =>
      let n := MixtureDistribution.len_parameters in
      ts <- MixtureDistribution.terms
              (fun di => log_probability di symbol) d w n ;;
      Ok (_log (numpy.sum ts))
  | Multivariate ds w _ =>
      obs <- MultivariateDistribution.components symbol ;;
      MultivariateDistribution.weighted_sum log_probability ds obs w 0
  end.

(** Whether the keywords of a call fit the signature of the method:
    [inertia] and [min_std] are None when the caller leaves them out. *)
Definition accepts (takes_inertia takes_min_std : bool)
    (inertia min_std : option double) : bool :=
  match inertia, min_std with
  | None, None => true
  | Some _, None => takes_inertia
  | None, Some _ => takes_min_std
  | Some _, Some _ => takes_inertia && takes_min_std
  end.

Definition default_inertia : double := Fin 0.
Definition default_min_std : double := Fin (1 / 100).

(** self.from_sample( items, weights, inertia=..., min_std=... ) *)
Fixpoint from_sample (self : Distribution) (items : list value) (weights : wopt)
    (inertia min_std : option double) {struct self} : Distribution * outcome :=
  match self with
  | Uniform p s f =>
      if accepts true false inertia min_std then
        commit self
          (UniformDistribution.from_sample p f items weights
             (default default_inertia inertia))
          (fun p' => Uniform p' s f)
      else raised self TypeError
  | Normal p s f =>
      commit self
        (NormalDistribution.from_sample p f items weights
           (default default_inertia inertia) (default default_min_std min_std))
        (fun p' => Normal p' s f)
  | LogNormal p s f =>
      commit self
        (LogNormalDistribution.from_sample p f items weights
           (default default_inertia inertia) (default default_min_std min_std))
        (fun p' => LogNormal p' s f)
  | ExtremeValue _ f | Lambda _ f =>
      if accepts false false inertia min_std then
        commit self (Base.from_sample f) (fun _ => self)
      else raised self TypeError
  | Exponential p s f =>
      if accepts true false inertia min_std then
        commit self
          (ExponentialDistribution.from_sample p f items weights
             (default default_inertia inertia))
          (fun p' => Exponential p' s f)
      else raised self TypeError
  | Discrete p s f =>
      if accepts true false inertia min_std then
        returned (Discrete
                    (DiscreteDistribution.from_sample p f items weights
                       (default default_inertia inertia)) s f)
      else raised self TypeError
  | KernelDensity k p s f =>
      if accepts true false inertia min_std then
        commit self
          (KernelDensity.from_sample p f items weights
             (default default_inertia inertia))
          (fun p' => KernelDensity k p' s f)
      else raised self TypeError
  | Mixture _ _ _ =>
      if accepts false false inertia min_std then
        commit self MixtureDistribution.from_sample (fun _ => self)
      else raised self TypeError
  | Multivariate ds w f =>
      if accepts true false inertia min_std then
        if f then returned self else
        let inertia := default default_inertia inertia in
        let '(ds', o) :=
          MultivariateDistribution.each_column
            (fun d col => from_sample d col weights (Some inertia) None)
            O ds items in
        (Multivariate ds' w f, o)
      else raised self TypeError
  end.

(** self.summarize( items, weights ) *)
Fixpoint summarize (self : Distribution) (items : list value) (weights : wopt)
    {struct self} : Distribution * outcome :=
  match self with
  | Uniform p s f =>
      commit self (UniformDistribution.summarize s items weights)
        (fun s' => Uniform p s' f)
  | Normal p s f =>
      commit self (NormalDistribution.summarize s items weights)
        (fun s' => Normal p s' f)
  | LogNormal p s f =>
      commit self (LogNormalDistribution.summarize s items weights)
        (fun s' => LogNormal p s' f)
  | Exponential p s f =>
      commit self (ExponentialDistribution.summarize s items weights)
        (fun s' => Exponential p s' f)
  | Discrete p s f =>
      returned (Discrete p (DiscreteDistribution.summarize s items weights) f)
  | KernelDensity k p s f =>
      commit self (Base.summarize s items weights)
        (fun s' => KernelDensity k p s' f)
  | ExtremeValue _ _ | Lambda _ _ | Mixture _ _ _ =>
      (* len( self.summaries ) with summaries None *)
      raised self TypeError
  | Multivariate ds w f =>
      let '(ds', o) :=
        MultivariateDistribution.each_column
          (fun d col => summarize d col weights) O ds items in
      (Multivariate ds' w f, o)
  end.

(** Distribution.from_summaries( self ), inherited by the kernel
    densities: [self.from_sample( *self.summaries )] and then
    [self.summaries = []]. *)
Definition kernel_from_summaries (k : kernel)
    (p : list double * double * list double)
    (s : option (list value * wopt)) (f : bool) : Distribution * outcome :=
  let self := KernelDensity k p s f in
  if f then returned self else
  match s with
  | None => raised self TypeError
  | Some (items, weights) =>
      commit self (KernelDensity.from_sample p f items weights default_inertia)
        (fun p' => KernelDensity k p' None f)
  end.

(** self.from_summaries( inertia=... ) *)
Fixpoint from_summaries (self : Distribution) (inertia : option double)
    {struct self} : Distribution * outcome :=
  match self with
  | Uniform p s f =>
      commit self
        (UniformDistribution.from_summaries p s f (default default_inertia inertia))
        (fun ps => Uniform (fst ps) (snd ps) f)
  | Normal p s f =>
      commit self
        (NormalDistribution.from_summaries p s f (default default_inertia inertia))
        (fun ps => Normal (fst ps) (snd ps) f)
  | LogNormal p s f =>
      commit self
        (LogNormalDistribution.from_summaries p s f (default default_inertia inertia))
        (fun ps => LogNormal (fst ps) (snd ps) f)
  | Exponential p s f =>
      commit self
        (ExponentialDistribution.from_summaries p s f (default default_inertia inertia))
        (fun ps => Exponential (fst ps) (snd ps) f)
  | Discrete p s f =>
      let ps := DiscreteDistribution.from_summaries p s f
                  (default default_inertia inertia) in
      returned (Discrete (fst ps) (snd ps) f)
  | KernelDensity k p s f =>
      match inertia with
      | Some _ => raised self TypeError
      | None => kernel_from_summaries k p s f
      end
  | ExtremeValue _ f | Lambda _ f | Mixture _ _ f =>
      match inertia with
      | Some _ => raised self TypeError
      | None =>
          (* self.from_sample( *self.summaries ) with summaries None *)
          if f then returned self else raised self TypeError
      end
  | Multivariate ds w f =>
      if f then returned self else
      let inertia := default default_inertia inertia in
      let '(ds', o) :=
        MultivariateDistribution.each_child
          (fun d => from_summaries d (Some inertia)) ds in
      (Multivariate ds' w f, o)
  end.

(** Distribution.copy: [self.__class__( *self.parameters )].  The stored
    weights of a kernel density, a mixture and a multivariate distribution
    are numpy arrays. *)
Definition copy (self : Distribution) : res Distribution :=
  match self with
  | Uniform (start, end_) _ _ => Ok (UniformDistribution.__init__ start end_ None)
  | Normal (mean, std) _ _ => Ok (NormalDistribution.__init__ mean std None)
  | LogNormal (mu, sigma) _ _ => Ok (LogNormalDistribution.__init__ mu sigma None)
  | ExtremeValue (mu, sigma, epsilon) _ =>
      Ok (ExtremeValueDistribution.__init__ mu sigma epsilon None)
  | Exponential rate _ _ => Ok (ExponentialDistribution.__init__ rate None)
  | Discrete characters _ _ => Ok (DiscreteDistribution.__init__ characters None)
  | Lambda lambda_funct _ => Ok (LambdaDistribution.__init__ lambda_funct None)
  | KernelDensity k (points, bandwidth, weights) _ _ =>
      KernelDensity.__init__ k points (Some bandwidth) (WArray weights) None
  | Mixture distributions weights _ =>
      MixtureDistribution.__init__ distributions (WArray weights) None
  | Multivariate distributions weights _ =>
      MultivariateDistribution.__init__ distributions (WArray weights) None
  end.

(** ** Sequences of fitting calls *)

Inductive call : Type :=
| FromSample (items : list value) (weights : wopt)
             (inertia min_std : option double)
| FromSummaries (inertia : option double).

Definition perform (c : call) (self : Distribution) : Distribution * outcome :=
  match c with
  | FromSample items weights inertia min_std =>
      from_sample self items weights inertia min_std
  | FromSummaries inertia => from_summaries self inertia
  end.

(** The calls one after the other, the caller going on after an
    exception. *)
Definition run (cs : list call) (self : Distribution) : Distribution :=
  fold_left (fun d c => fst (perform c d)) cs self.

(** summarize( B1, w1 ); ...; summarize( Bk, wk ); from_summaries(), the
    inertia left at its default. *)
Definition summarize_batches (self : Distribution)
    (batches : list (list value * wopt)) : Distribution :=
  fold_left (fun d b => fst (summarize d (fst b) (snd b))) batches self.

Definition summarize_then_commit (self : Distribution)
    (batches : list (list value * wopt)) : Distribution :=
  fst (from_summaries (summarize_batches self batches) None).

(** The mixture density in the words of the spec: the logarithm of the sum,
    over all the children, of weight times exp of the child's
    log-probability.  To be compared with [log_probability] on a
    [Mixture]. *)
Definition spec_mixture_log_probability (distributions : list Distribution)
    (weights : list double) (symbol : value) : res double :=
  ts <- MixtureDistribution.terms
          (fun di => log_probability di symbol)
          distributions weights (length distributions) ;;
  Ok (_log (numpy.sum ts)).

(** The value of [frozen] that the constructor of the class takes when the
    caller does not pass it. *)
Definition constructor_default_frozen (self : Distribution) : bool :=
  match self with
  | ExtremeValue _ _ | Lambda _ _ => true
  | _ => false
  end.

(** ** Children held by reference *)

(** A multivariate distribution over a store of child objects, to follow
    what a fit through one composite does to another composite that holds
    the same children. *)
Module Shared.

(** The child objects, by address. *)
Definition store : Type := nat -> Distribution.

Definition update (st : store) (a : nat) (d : Distribution) : store :=
  fun b => if Nat.eqb b a then d else st b.

(** A MultivariateDistribution whose [parameters[0]] lists the addresses
    of its children. *)
Record multivariate : Type := {
  distributions : list nat;
  weights : list double;
  frozen : bool
}.

(** The object as a value, its children read from the store. *)
Definition view (st : store) (self : multivariate) : Distribution :=
  Multivariate (map st (distributions self)) (weights self) (frozen self).

(** MultivariateDistribution.__init__ *)
Definition __init__ (distributions : list nat) (weights : wopt)
    (frozen : option bool) : res multivariate :=
  let n := length distributions in
  given <- truth weights ;;
  let weights := if given then elements weights else numpy.ones n in
  Ok {| distributions := distributions; weights := weights;
        frozen := default false frozen |}.

(** Distribution.copy: the new instance receives [parameters[0]], the
    list of the children of the original. *)
Definition copy (self : multivariate) : res multivariate :=
  __init__ (distributions self) (WArray (weights self)) None.

(** MultivariateDistribution.from_sample: each child is fitted where it
    lives. *)
Fixpoint fit_children (i : nat) (children : list nat) (items : list value)
    (weights : wopt) (inertia : double) (st : store) : store * outcome :=
  match children with
  | [] => (st, None)
  | a :: rest =>
      match MultivariateDistribution.column i items with
      | Raise e => (st, Some e)
      | Ok col =>
          let '(d', o) := from_sample (st a) col weights (Some inertia) None in
          let st' := update st a d' in
          match o with
          | Some e => (st', Some e)
          | None => fit_children (S i) rest items weights inertia st'
          end
      end
  end.

Definition from_sample (self : multivariate) (items : list value)
    (weights : wopt) (inertia : option double) (st : store) : store * outcome :=
  if frozen self then (st, None)
  else fit_children 0 (distributions self) items weights
         (default default_inertia inertia) st.

End Shared.

(** ** Sample objects *)

(** NormalDistribution( 0, 1 ) *)
Definition standard_normal : Distribution := NormalDistribution.__init__ 0 1 None.

(** LogNormalDistribution( 0, 1 ) *)
Definition standard_lognormal : Distribution :=
  LogNormalDistribution.__init__ 0 1 None.

(** The dictionary [{'A': 0.5, 'B': 0.5}] and DiscreteDistribution of it. *)
Definition coin_characters : dict :=
  [(VSym "A", Fin (1 / 2)); (VSym "B", Fin (1 / 2))].
Definition coin : Distribution := DiscreteDistribution.__init__ coin_characters None.

(** UniformDistribution( 0, 1 ) and UniformDistribution( 2, 3 ) *)
Definition uniform_0_1 : Distribution := UniformDistribution.__init__ 0 1 None.
Definition uniform_2_3 : Distribution := UniformDistribution.__init__ 2 3 None.

(** ExtremeValueDistribution( 0, 1, 0, frozen=True ) *)
Definition frozen_gumbel : Distribution :=
  ExtremeValueDistribution.__init__ 0 1 0 (Some true).

(** GaussianKernelDensity( [1, 2] ), when its constructor returns. *)
Definition two_point_density : res Distribution :=
  KernelDensity.__init__ GaussianKernel [Fin 1; Fin 2] None WNone None.

(** A store in which every address holds a NormalDistribution( 0, 1 ). *)
Definition one_normal : Shared.store := fun _ => standard_normal.

(** A log-probability function for a LambdaDistribution: log(1) on every
    symbol. *)
Definition always_zero (symbol : value) : res double := Ok (Fin 0).

(** The scalar parametric family of the spec. *)
Definition scalar_parametric (self : Distribution) : bool :=
  match self with
  | Uniform _ _ _ | Normal _ _ _ | LogNormal _ _ _ | ExtremeValue _ _
  | Exponential _ _ _ | Discrete _ _ _ | Lambda _ _ => true
  | _ => false
  end.

(** ** Finite samples in exact arithmetic *)

(** Sums and dot products of real numbers, to state in closed form what the
    fits compute on finite items and weights. *)
Definition Rsum (l : list R) : R := fold_right Rplus 0 l.

Fixpoint Rdot (a b : list R) : R :=
  match a, b with
  | x :: a', y :: b' => x * y + Rdot a' b'
  | _, _ => 0
  end.

Definition squares (xs : list R) : list R := map (fun x => x * x) xs.

Definition weighted_mean (xs ws : list R) : R := Rdot xs ws / Rsum ws.

Definition weighted_variance (xs ws : list R) : R :=
  Rdot (squares xs) ws / Rsum ws - weighted_mean xs ws * weighted_mean xs ws.

(** Finite reals as an array of doubles, and as the items of a call. *)
Definition floats (xs : list R) : list double := map Fin xs.
Definition numbers (xs : list R) : list value := map VNum (floats xs).

(** A batch of finite items with as many finite weights, none negative,
    not all zero. *)
Definition weighted_batch (b : list R * list R) : Prop :=
  length (fst b) = length (snd b)
  /\ Forall (fun w => 0 <= w) (snd b)
  /\ 0 < Rsum (snd b).

(** The arguments [( items, weights )] of summarize for a batch. *)
Definition as_call (b : list R * list R) : list value * wopt :=
  (numbers (fst b), WList (floats (snd b))).

(** The summary [[ mean, variance, weights.sum() ]] of one batch, in
    reals and as doubles. *)
Definition summary_of (b : list R * list R) : R * R * R :=
  let m := weighted_mean (fst b) (snd b) in
  (m, Rdot (squares (fst b)) (snd b) / Rsum (snd b) - m * m, Rsum (snd b)).

Definition summary_floats (s : R * R * R) : double * double * double :=
  let '(m, v, w) := s in (Fin m, Fin v, Fin w).

(** The items and the weights of all the batches, one after the other. *)
Definition all_items (batches : list (list R * list R)) : list R :=
  concat (map fst batches).
Definition all_weights (batches : list (list R * list R)) : list R :=
  concat (map snd batches).

(** ** Further definitions *)

(** The smallest and the largest of a non-empty list of reals, read from
    the left as numpy.min and numpy.max do. *)
Definition Rmin_from (x : R) (rest : list R) : R := fold_left Rmin rest x.
Definition Rmax_from (x : R) (rest : list R) : R := fold_left Rmax rest x.

(** A non-empty batch of finite items, as its first item and the others. *)
Definition batch_items (b : R * list R) : list R := fst b :: snd b.

(** The arguments of summarize for a batch without weights. *)
Definition unweighted_call (b : R * list R) : list value * wopt :=
  (numbers (batch_items b), WNone).

(** ** Sampling, given the draw *)

(** DiscreteDistribution.sample, the value of [random.random()] being
    [rand]: the first category whose probability is at least what is left
    of the draw; None when the loop ends without returning. *)
Fixpoint discrete_sample (characters : dict) (rand : double) : option value :=
  match characters with
  | [] => None
  | (key, value) :: rest =>
      if (value >=? rand)%D then Some key
      else discrete_sample rest (rand - value)%D
  end.

(** MixtureDistribution.sample, the value of [random.random()] being [i]:
    the child whose [sample()] is called, over [zip( distributions,
    weights )]; None when the loop ends without returning. *)
Fixpoint mixture_choice (distributions : list Distribution)
    (weights : list double) (i : double) : option Distribution :=
  match distributions, weights with
  | d :: ds, w :: ws =>
      if (w >? i)%D then Some d else mixture_choice ds ws (i - w)%D
  | _, _ => None
  end.

(** * Properties *)

(** ** Deciding comparisons of reals *)

Lemma Rltb_true (a b : R) : a < b -> Rltb a b = true.
Proof. intros H. unfold Rltb. destruct (Rlt_dec a b); [reflexivity | contradiction]. Qed.

Lemma Rltb_false (a b : R) : ~ a < b -> Rltb a b = false.
Proof. intros H. unfold Rltb. destruct (Rlt_dec a b); [contradiction | reflexivity]. Qed.

Lemma Reqb_true (a b : R) : a = b -> Reqb a b = true.
Proof. intros H. unfold Reqb. destruct (Req_dec_T a b); [reflexivity | contradiction]. Qed.

Lemma Reqb_false (a b : R) : a <> b -> Reqb a b = false.
Proof. intros H. unfold Reqb. destruct (Req_dec_T a b); [contradiction | reflexivity]. Qed.

(** Linear arithmetic, after normalising the constants when a denominator
    is not yet a numeral. *)
Ltac Rsolve := solve [ lra | field_simplify; lra ].

(** Settle every comparison of real constants in the goal. *)
Ltac Rcompare :=
  repeat match goal with
  | |- context [Rltb ?a ?b] =>
      first [ rewrite (Rltb_true a b) by Rsolve
            | rewrite (Rltb_false a b) by Rsolve ]
  | |- context [Reqb ?a ?b] =>
      first [ rewrite (Reqb_true a b) by Rsolve
            | rewrite (Reqb_false a b) by Rsolve ]
  end.

(** Split on every comparison of reals in the goal. *)
Ltac Rsplit :=
  repeat match goal with
  | |- context [Rltb ?a ?b] =>
      let H := fresh "H" in
      destruct (Rlt_dec a b) as [H|H];
      [ rewrite (Rltb_true a b H) | rewrite (Rltb_false a b H) ]
  | |- context [Reqb ?a ?b] =>
      let H := fresh "H" in
      destruct (Req_dec_T a b) as [H|H];
      [ rewrite (Reqb_true a b H) | rewrite (Reqb_false a b H) ]
  end.

(** Unfold the embedding down to real arithmetic and settle the
    comparisons met on the way. *)
Ltac crunch :=
  cbv -[Rplus Rminus Rmult Rdiv Ropp Rinv IZR Rltb Reqb sqrt ln exp Rabs
        Rpower powerRZ frac_part Int_part].
Ltac evaluate := repeat (progress (crunch; Rcompare)).

(** A square root whose argument is a constant equal to zero. *)
Ltac sqrt_of_zero :=
  match goal with
  | |- context [sqrt ?e] => replace e with 0 by lra; rewrite sqrt_0
  end.

(** Replace the real under a [Fin] by an equal one. *)
Lemma Fin_eq (a b : R) : a = b -> Fin a = Fin b.
Proof. intros ->. reflexivity. Qed.

(** ** The examples of the spec *)

(** UniformDistribution( 0, 10 ).log_probability( 5 ) == log( 0.1 ) *)
Example uniform_inside :
  log_probability (UniformDistribution.__init__ 0 10 None) (VNum 5)
  = Ok (Fin (ln (1 / 10))).
Proof.
  evaluate. f_equal. apply Fin_eq. f_equal. Rsolve.
Qed.

(** UniformDistribution( 0, 10 ).log_probability( 11 ) == -inf *)
Example uniform_outside :
  log_probability (UniformDistribution.__init__ 0 10 None) (VNum 11) = Ok NEGINF.
Proof. evaluate. reflexivity. Qed.

(** NormalDistribution( 0, 1 ).log_probability( 0 ) is log( 1/sqrt(2 pi) ),
    with the constant of the file for the square root. *)
Example normal_at_mean :
  log_probability standard_normal (VNum 0)
  = Ok (Fin (ln (100000000000 / 250662827463))).
Proof.
  evaluate. f_equal. apply Fin_eq.
  replace (1 / (1 * (250662827463 / 100000000000)))
    with (100000000000 / 250662827463) by (field_simplify; lra).
  lra.
Qed.

(** A category of the dictionary, and one that is not in it. *)
Example discrete_seen :
  log_probability coin (VSym "A") = Ok (Fin (ln (1 / 2))).
Proof. evaluate. reflexivity. Qed.

Example discrete_unseen :
  log_probability coin (VSym "C") = Ok NEGINF.
Proof. evaluate. reflexivity. Qed.

(** A kernel density fitted with inertia 0 keeps the new points only. *)
Example kernel_replaces_points :
  (d <- two_point_density ;;
   Ok (parameters (fst (from_sample d [VNum 7] WNone None None))))%py
  = Ok (Points [Fin 7] (Fin 1) [Fin 1]).
Proof.
  evaluate. f_equal. f_equal. f_equal. apply Fin_eq. lra.
Qed.

(** ** Frozen distributions *)

Lemma from_sample_frozen (d : Distribution) items weights inertia min_std :
  frozen d = true ->
  fst (from_sample d items weights inertia min_std) = d.
Proof.
  intros Hf. destruct d; simpl in Hf; subst; simpl.
  - destruct (accepts _ _ _ _); reflexivity.
  - unfold NormalDistribution.from_sample. rewrite orb_true_r. reflexivity.
  - unfold LogNormalDistribution.from_sample. rewrite orb_true_r. reflexivity.
  - destruct (accepts _ _ _ _); reflexivity.
  - destruct (accepts _ _ _ _); [|reflexivity].
    unfold ExponentialDistribution.from_sample. rewrite orb_true_r. reflexivity.
  - destruct (accepts _ _ _ _); [|reflexivity].
    unfold DiscreteDistribution.from_sample. rewrite orb_true_r. reflexivity.
  - destruct (accepts _ _ _ _); reflexivity.
  - destruct (accepts _ _ _ _); reflexivity.
  - destruct (accepts _ _ _ _); reflexivity.
  - destruct (accepts _ _ _ _); reflexivity.
Qed.

Lemma from_summaries_frozen (d : Distribution) inertia :
  frozen d = true ->
  fst (from_summaries d inertia) = d.
Proof.
  intros Hf. destruct d; simpl in Hf; subst; simpl.
  - reflexivity.
  - unfold NormalDistribution.from_summaries. rewrite orb_true_r. reflexivity.
  - unfold LogNormalDistribution.from_summaries. rewrite orb_true_r. reflexivity.
  - destruct inertia; reflexivity.
  - unfold ExponentialDistribution.from_summaries. rewrite orb_true_r. reflexivity.
  - reflexivity.
  - destruct inertia; reflexivity.
  - destruct inertia; reflexivity.
  - destruct inertia; reflexivity.
  - reflexivity.
Qed.

Lemma run_frozen (cs : list call) (d : Distribution) :
  frozen d = true -> run cs d = d.
Proof.
  intros Hf. unfold run. induction cs as [|c cs IH]; simpl; [reflexivity|].
  destruct c; simpl.
  - rewrite from_sample_frozen by assumption. exact IH.
  - rewrite from_summaries_frozen by assumption. exact IH.
Qed.

Lemma frozen_freeze (d : Distribution) : frozen (freeze d) = true.
Proof. destruct d; reflexivity. Qed.

Lemma parameters_set_frozen (b : bool) (d : Distribution) :
  parameters (set_frozen b d) = parameters d.
Proof. destruct d; reflexivity. Qed.

(** C3: once [freeze] has been called, whatever sequence of from_sample and
    from_summaries calls follows (any items, weights, inertia and min_std,
    the caller going on after an exception), the distribution still has the
    parameters it had, and it is still frozen. *)
Theorem frozen_fits_keep_parameters (d : Distribution) (cs : list call) :
  parameters (run cs (freeze d)) = parameters d
  /\ frozen (run cs (freeze d)) = true.
Proof.
  rewrite run_frozen by apply frozen_freeze.
  split; [apply parameters_set_frozen | apply frozen_freeze].
Qed.

(** ** Fitting a normal distribution: from_sample and the summaries *)

(** *** numpy on finite arrays *)

(** On arrays of finite values the numpy operations are the real sums. *)
Lemma sum_floats_from (l : list R) (a : R) :
  fold_left add (floats l) (Fin a) = Fin (a + Rsum l).
Proof.
  revert a. induction l as [|x l IH]; intros a; simpl.
  - apply Fin_eq. lra.
  - rewrite IH. apply Fin_eq. lra.
Qed.

Lemma sum_floats (l : list R) : numpy.sum (floats l) = Fin (Rsum l).
Proof.
  unfold numpy.sum. rewrite sum_floats_from. apply Fin_eq. lra.
Qed.

Lemma length_floats (l : list R) : length (floats l) = length l.
Proof. apply length_map. Qed.

Lemma sum_multiply_floats (a b : list R) :
  numpy.sum (numpy.multiply (floats a) (floats b)) = Fin (Rdot a b).
Proof.
  unfold numpy.sum.
  assert (H : forall c, fold_left add (numpy.multiply (floats a) (floats b)) (Fin c)
                        = Fin (c + Rdot a b)).
  { revert b. induction a as [|x a IH]; intros [|y b] c; simpl;
      try (apply Fin_eq; lra).
    rewrite IH. apply Fin_eq. lra. }
  rewrite H. apply Fin_eq. lra.
Qed.

Lemma average_floats (a w : list R) :
  length a = length w -> Rsum w <> 0 ->
  numpy.average (floats a) (floats w) = Ok (Fin (weighted_mean a w)).
Proof.
  intros Hl Hw. unfold numpy.average.
  rewrite !length_floats, Hl, Nat.eqb_refl, sum_floats, sum_multiply_floats.
  cbn. rewrite (Reqb_false _ _ Hw). reflexivity.
Qed.

Lemma squares_minus_floats (a : list R) (m : R) :
  numpy.squares_minus (floats a) (sq (Fin m))
  = floats (map (fun x => x * x + - (m * m)) a).
Proof.
  unfold numpy.squares_minus, floats. rewrite !map_map. reflexivity.
Qed.

Lemma dot_floats (a b : list R) :
  length a = length b ->
  numpy.dot (floats a) (floats b) = Ok (Fin (Rdot a b)).
Proof.
  intros Hl. unfold numpy.dot.
  rewrite !length_floats, Hl, Nat.eqb_refl, sum_multiply_floats. reflexivity.
Qed.

Lemma Rdot_shifted (a w : list R) (c : R) :
  length a = length w ->
  Rdot (map (fun x => x * x + - c) a) w = Rdot (squares a) w - c * Rsum w.
Proof.
  revert w. induction a as [|x a IH]; intros [|y w] Hl; simpl in *;
    try discriminate; [lra|].
  rewrite IH by lia. lra.
Qed.

Lemma as_floats_numbers (xs : list R) : as_floats (numbers xs) = Ok (floats xs).
Proof.
  induction xs as [|x xs IH]; simpl; [reflexivity|].
  unfold numbers in IH. rewrite IH. reflexivity.
Qed.

(** *** The summaries of the batches *)

Lemma sub_Fin (a b : R) : (Fin a - Fin b)%D = Fin (a - b).
Proof. reflexivity. Qed.

(** The square root of the variance, with the clamp of a negative
    variance: on a finite variance it is the real square root, which is
    zero below zero. *)
Lemma std_of_finite_variance (v : R) :
  (if (Fin v >=? 0)%D then csqrt (Fin v) else Fin 0) = Fin (sqrt v).
Proof.
  unfold geb, leb, ltb, eqb, csqrt.
  destruct (Rlt_dec 0 v) as [H|H].
  - rewrite (Rltb_true _ _ H). simpl. rewrite Rltb_false by lra. reflexivity.
  - rewrite (Rltb_false _ _ H). simpl.
    destruct (Req_dec_T 0 v) as [E|E].
    + rewrite (Reqb_true _ _ E). rewrite Rltb_false by lra. reflexivity.
    + rewrite (Reqb_false _ _ E). apply Fin_eq. symmetry. apply sqrt_neg_0. lra.
Qed.

(** What summarize appends for one batch. *)
Lemma batch_summary_floats (b : list R * list R) :
  weighted_batch b ->
  batch_summary (floats (fst b)) (floats (snd b)) = Ok (summary_floats (summary_of b)).
Proof.
  intros (Hl & _ & Hw). destruct b as [xs ws]. simpl in *.
  unfold batch_summary.
  rewrite average_floats by (assumption || lra). cbn [bind].
  rewrite squares_minus_floats, dot_floats by (rewrite length_map; assumption).
  cbn [bind]. rewrite sum_floats. cbn.
  rewrite Reqb_false by lra.
  rewrite Rdot_shifted by assumption.
  do 2 f_equal. f_equal. apply Fin_eq. field. lra.
Qed.

(** summarize called on each batch in turn collects their summaries. *)
Lemma summarize_batches_normal (p : double * double) (f : bool)
    (batches : list (list R * list R)) :
  Forall weighted_batch batches ->
  forall s,
  summarize_batches (Normal p s f) (map as_call batches)
  = Normal p (s ++ map (fun b => summary_floats (summary_of b)) batches) f.
Proof.
  unfold summarize_batches.
  induction 1 as [|b batches Hb _ IH]; intros s; simpl.
  - rewrite app_nil_r. reflexivity.
  - unfold NormalDistribution.summarize. simpl.
    rewrite sum_floats. cbn [eqb].
    destruct Hb as (Hl & Hnn & Hw). rewrite Reqb_false by lra.
    rewrite as_floats_numbers. cbn [bind].
    rewrite batch_summary_floats by (repeat split; assumption).
    cbn [bind commit fst]. rewrite IH, <- app_assoc. reflexivity.
Qed.

(** *** Merging the summaries *)

Lemma Rsum_app (a b : list R) : Rsum (a ++ b) = Rsum a + Rsum b.
Proof. induction a as [|x a IH]; simpl; [lra | rewrite IH; lra]. Qed.

Lemma Rdot_app (a1 a2 b1 b2 : list R) :
  length a1 = length b1 ->
  Rdot (a1 ++ a2) (b1 ++ b2) = Rdot a1 b1 + Rdot a2 b2.
Proof.
  revert b1. induction a1 as [|x a1 IH]; intros [|y b1] Hl; simpl in *;
    try discriminate; [lra|].
  rewrite IH by lia. lra.
Qed.

Lemma squares_app (a b : list R) : squares (a ++ b) = squares a ++ squares b.
Proof. apply map_app. Qed.

Lemma length_squares (a : list R) : length (squares a) = length a.
Proof. apply length_map. Qed.

Lemma length_all (batches : list (list R * list R)) :
  Forall weighted_batch batches ->
  length (all_items batches) = length (all_weights batches).
Proof.
  induction 1 as [|[xs ws] batches (Hl & _) _ IH]; [reflexivity|].
  unfold all_items, all_weights in *. simpl in *.
  rewrite !length_app. congruence.
Qed.

(** Sums over the summaries are sums over the concatenated sample. *)
Lemma sums_of_summaries (batches : list (list R * list R)) :
  Forall weighted_batch batches ->
  let ss := map summary_of batches in
  Rsum (map snd ss) = Rsum (all_weights batches)
  /\ Rdot (map (fun s => fst (fst s)) ss) (map snd ss)
     = Rdot (all_items batches) (all_weights batches)
  /\ Rsum (map (fun s => let '(m, v, w) := s in (v + m * m) * w) ss)
     = Rdot (squares (all_items batches)) (all_weights batches)
  /\ 0 <= Rsum (all_weights batches).
Proof.
  induction 1 as [|[xs ws] batches (Hl & Hnn & Hw) _ IH]; simpl.
  - unfold all_items, all_weights. simpl. lra.
  - destruct IH as (IH1 & IH2 & IH3 & IH4).
    unfold all_items, all_weights in *. simpl in *.
    rewrite Rsum_app, squares_app, !Rdot_app
      by (rewrite ?length_squares; assumption).
    rewrite IH1, IH2, IH3. unfold weighted_mean.
    repeat split; try lra; field; lra.
Qed.

Lemma positive_total (batches : list (list R * list R)) :
  batches <> [] -> Forall weighted_batch batches ->
  0 < Rsum (all_weights batches).
Proof.
  intros Hne H. destruct H as [|[xs ws] batches (Hl & Hnn & Hw) H];
    [contradiction|].
  pose proof (sums_of_summaries batches H) as (_ & _ & _ & Hpos).
  unfold all_weights in *. simpl in *. rewrite Rsum_app. lra.
Qed.

(** from_summaries on the summaries of the batches: the weighted mean and
    the square root of the weighted variance of the whole sample. *)
Lemma merge_summaries_closed_form (pm ps : R) (batches : list (list R * list R)) :
  batches <> [] -> Forall weighted_batch batches ->
  merge_summaries (Fin pm, Fin ps)
    (map (fun b => summary_floats (summary_of b)) batches) (Fin 0)
  = Ok (Fin (weighted_mean (all_items batches) (all_weights batches)),
        Fin (sqrt (weighted_variance (all_items batches) (all_weights batches)))).
Proof.
  intros Hne H.
  pose proof (positive_total batches Hne H) as Hpos.
  pose proof (sums_of_summaries batches H) as (S1 & S2 & S3 & _).
  cbv zeta in S1, S2, S3.
  unfold merge_summaries.
  replace (map (fun s => fst (fst s)) (map (fun b => summary_floats (summary_of b)) batches))
    with (floats (map (fun s => fst (fst s)) (map summary_of batches))).
  2:{ unfold floats. rewrite !map_map. apply map_ext. intros [xs ws]. reflexivity. }
  replace (map snd (map (fun b => summary_floats (summary_of b)) batches))
    with (floats (map snd (map summary_of batches))).
  2:{ unfold floats. rewrite !map_map. apply map_ext. intros [xs ws]. reflexivity. }
  replace (map (fun s => let '(m, v, w) := s in ((v + sq m) * w)%D)
             (map (fun b => summary_floats (summary_of b)) batches))
    with (floats (map (fun s => let '(m, v, w) := s in (v + m * m) * w)
                    (map summary_of batches))).
  2:{ unfold floats. rewrite !map_map. apply map_ext. intros [xs ws]. reflexivity. }
  rewrite average_floats.
  2:{ rewrite !length_map. reflexivity. }
  2:{ rewrite S1. lra. }
  cbn [bind]. rewrite !sum_floats. unfold weighted_mean. rewrite S1, S2, S3.
  cbn [div sub add neg sq mul]. rewrite Reqb_false by lra.
  rewrite sub_Fin, std_of_finite_variance.
  unfold blend. cbn. f_equal. f_equal; apply Fin_eq; [lra|].
  unfold weighted_variance, weighted_mean. lra.
Qed.

(** *** from_sample on the whole sample *)

Lemma max_of_pair_Fin (a b : R) : max_of_pair (Fin a) (Fin b) = Fin (Rmax a b).
Proof.
  unfold max_of_pair, gtb, ltb, Rmax.
  destruct (Rle_dec a b) as [H|H].
  - destruct (Rlt_dec a b) as [L|L].
    + rewrite (Rltb_true _ _ L). reflexivity.
    + rewrite (Rltb_false _ _ L). apply Fin_eq. lra.
  - rewrite Rltb_false by lra. reflexivity.
Qed.

(** from_sample on finite items and weights: the weighted mean, and the
    square root of the weighted variance raised to the floor. *)
Lemma fit_mean_std_closed_form (pm ps m : R) (xs ws : list R) :
  length xs = length ws -> Rsum ws <> 0 ->
  Nat.ltb 1 (numpy.count_nonzero (floats ws)) = true ->
  fit_mean_std (Fin pm, Fin ps) (floats xs) (floats ws) (Fin 0) (Fin m)
  = Ok (Fin (weighted_mean xs ws),
        Fin (Rmax (sqrt (weighted_variance xs ws)) m)).
Proof.
  intros Hl Hw Hn. unfold fit_mean_std.
  rewrite average_floats by assumption. cbn [bind]. rewrite Hn.
  rewrite squares_minus_floats, dot_floats by (rewrite length_map; assumption).
  cbn [bind]. rewrite sum_floats. cbn [div]. rewrite (Reqb_false _ _ Hw).
  rewrite std_of_finite_variance, max_of_pair_Fin.
  unfold blend. cbn. f_equal. f_equal; apply Fin_eq; [lra|].
  rewrite Rdot_shifted by assumption.
  replace ((Rdot (squares xs) ws - weighted_mean xs ws * weighted_mean xs ws * Rsum ws)
             / Rsum ws)
    with (weighted_variance xs ws)
    by (unfold weighted_variance; field; assumption).
  lra.
Qed.

Lemma normal_summaries_closed_form (pm ps : R) (batches : list (list R * list R)) :
  batches <> [] -> Forall weighted_batch batches ->
  summarize_then_commit (Normal (Fin pm, Fin ps) [] false) (map as_call batches)
  = Normal (Fin (weighted_mean (all_items batches) (all_weights batches)),
            Fin (sqrt (weighted_variance (all_items batches) (all_weights batches))))
      [] false.
Proof.
  intros Hne H. unfold summarize_then_commit.
  rewrite summarize_batches_normal by assumption. cbn [app from_summaries].
  unfold NormalDistribution.from_summaries.
  destruct batches as [|b batches]; [contradiction|].
  cbn [map length Nat.eqb orb default].
  change (summary_floats (summary_of b)
            :: map (fun b0 => summary_floats (summary_of b0)) batches)
    with (map (fun b0 => summary_floats (summary_of b0)) (b :: batches)).
  unfold default_inertia.
  rewrite merge_summaries_closed_form by assumption. reflexivity.
Qed.

Lemma normal_from_sample_closed_form (pm ps : R) (xs ws : list R) :
  length xs = length ws -> 0 < Rsum ws ->
  Nat.ltb 1 (numpy.count_nonzero (floats ws)) = true ->
  from_sample (Normal (Fin pm, Fin ps) [] false) (numbers xs) (WList (floats ws))
    None None
  = (Normal (Fin (weighted_mean xs ws),
             Fin (Rmax (sqrt (weighted_variance xs ws)) (1 / 100))) [] false,
     None).
Proof.
  intros Hl Hw Hn. cbn [from_sample default].
  unfold NormalDistribution.from_sample.
  assert (Hlen : Nat.eqb (length (numbers xs)) 0 = false).
  { destruct xs as [|x xs]; [|reflexivity].
    destruct ws; [simpl in Hw; lra | discriminate]. }
  rewrite Hlen. cbn [orb is_None elements].
  rewrite sum_floats. cbn [eqb]. rewrite Reqb_false by lra.
  rewrite as_floats_numbers. cbn [bind].
  unfold default_inertia, default_min_std.
  rewrite fit_mean_std_closed_form by (assumption || lra). reflexivity.
Qed.

(** *** The two paths side by side *)


(** C1: the dataset [5.0, 5.0] with the weights [1.0, 1.0] on
    NormalDistribution( 0, 1 ), fitted at once and fitted from the two
    batches [5.0] and [5.0], each of weight [1.0].  from_sample enforces the
    minimal standard deviation and returns (5, 0.01); summarize twice and
    then from_summaries return (5, 0): the two paths do not agree. *)
Theorem normal_round_trip_differs :
  fst (from_sample standard_normal [VNum 5; VNum 5] (WList [Fin 1; Fin 1])
         None None)
    = Normal (Fin 5, Fin (1 / 100)) [] false
  /\ summarize_then_commit standard_normal
       [([VNum 5], WList [Fin 1]); ([VNum 5], WList [Fin 1])]
    = Normal (Fin 5, Fin 0) [] false
  /\ parameters (Normal (Fin 5, Fin (1 / 100)) [] false)
     <> parameters (Normal (Fin 5, Fin 0) [] false).
Proof.
  repeat split.
  - evaluate. sqrt_of_zero. evaluate.
    f_equal. f_equal; apply Fin_eq; lra.
  - evaluate. repeat sqrt_of_zero. evaluate.
    f_equal. f_equal; apply Fin_eq; lra.
  - simpl. intros H. injection H as H. lra.
Qed.

(** *** The floor of from_sample *)

(** The standard deviation before the floor is a finite value or positive
    infinity. *)
Lemma std_of_variance (variance : double) :
  let std := if (variance >=? 0)%D then csqrt variance else Fin 0 in
  std = PInf \/ exists s, std = Fin s.
Proof.
  destruct variance as [v| | |]; cbn.
  - unfold geb, leb, ltb, eqb. Rsplit; cbn; try (right; eexists; reflexivity); exfalso; lra.
  - left. reflexivity.
  - right. eexists. reflexivity.
  - right. eexists. reflexivity.
Qed.

(** Raised to a finite floor and blended with inertia 0 into a finite prior,
    it is at least the floor. *)
Lemma floor_holds (std : double) (ps m : R) :
  std = PInf \/ (exists s, std = Fin s) ->
  (blend (Fin ps) (max_of_pair std (Fin m)) (Fin 0) >=? Fin m)%D = true.
Proof.
  intros [->|[s ->]].
  - crunch. Rcompare. reflexivity.
  - crunch. Rsplit; crunch; Rsplit; try reflexivity; exfalso; lra.
Qed.

(** Whenever from_sample, with inertia 0 and more than one weight nonzero,
    gets as far as assigning the parameters, the standard deviation it
    assigns is at least [min_std]. *)
Lemma fit_mean_std_floor (pm : double) (ps m : R) (xs ws : list double)
    (mean std : double) :
  Nat.ltb 1 (numpy.count_nonzero ws) = true ->
  fit_mean_std (pm, Fin ps) xs ws (Fin 0) (Fin m) = Ok (mean, std) ->
  (std >=? Fin m)%D = true.
Proof.
  intros Hn. unfold fit_mean_std. rewrite Hn.
  destruct (numpy.average xs ws) as [mu|e]; [|discriminate]. cbn [bind].
  destruct (numpy.dot _ ws) as [d|e]; [|discriminate]. cbn [bind snd].
  intros H. injection H as _ <-.
  apply floor_holds. apply std_of_variance.
Qed.

(** C6: summarize( [2.0, 2.0], weights=[1.0, 1.0] ) and then
    from_summaries() with inertia 0 on NormalDistribution( 0, 1 ): two items
    of nonzero weight, and the standard deviation that results is 0, below
    the floor of 0.01. *)
Theorem normal_from_summaries_below_floor :
  summarize_then_commit standard_normal
    [([VNum 2; VNum 2], WList [Fin 1; Fin 1])]
    = Normal (Fin 2, Fin 0) [] false
  /\ (Fin 0 <? default_min_std)%D = true.
Proof.
  split.
  - evaluate. repeat sqrt_of_zero. evaluate.
    f_equal. f_equal; apply Fin_eq; lra.
  - evaluate. reflexivity.
Qed.

(** ** from_summaries without summaries *)

(** NormalDistribution, LogNormalDistribution and ExponentialDistribution
    return at once on an empty list of summaries. *)
Lemma from_summaries_nothing_accumulated (d : Distribution) (inertia : option double) :
  match d with
  | Normal _ [] _ | LogNormal _ [] _ | Exponential _ [] _ => True
  | _ => False
  end ->
  from_summaries d inertia = (d, None).
Proof.
  destruct d as [p s f|p s f|p s f|p f|p s f|p s f|p f|k p s f|ds w f|ds w f];
    try contradiction; destruct s; try contradiction; reflexivity.
Qed.

(** UniformDistribution.from_summaries has no such guard and indexes the
    empty array. *)
Lemma uniform_from_summaries_nothing_accumulated (p : double * double)
    (inertia : option double) :
  from_summaries (Uniform p [] false) inertia = (Uniform p [] false, Some IndexError).
Proof. reflexivity. Qed.

(** C7: from_summaries() on DiscreteDistribution( {'A': 0.5, 'B': 0.5} ),
    not frozen, with nothing summarized: the call returns normally and the
    parameters are now the empty dictionary. *)
Theorem discrete_from_summaries_without_summaries :
  parameters coin = Characters coin_characters
  /\ from_summaries coin None
     = (Discrete [] DiscreteDistribution.empty_summaries false, None)
  /\ parameters (fst (from_summaries coin None)) = Characters []
  /\ parameters (fst (from_summaries coin None)) <> parameters coin.
Proof.
  assert (H : from_summaries coin None
              = (Discrete [] DiscreteDistribution.empty_summaries false, None))
    by (evaluate; reflexivity).
  rewrite H. repeat split. discriminate.
Qed.

(** ** from_sample on a sample without weight *)

(** NormalDistribution, LogNormalDistribution and ExponentialDistribution
    return at once when the weights sum to zero. *)
Lemma from_sample_weights_sum_to_zero (d : Distribution) (items : list value)
    (w : list double) (inertia min_std : option double) :
  match d with
  | Normal _ _ _ | LogNormal _ _ _ | Exponential _ _ _ => True
  | _ => False
  end ->
  (numpy.sum w =? 0)%D = true ->
  fst (from_sample d items (WList w) inertia min_std) = d.
Proof.
  intros Hd Hw.
  destruct d as [p s f|p s f|p s f|p f|p s f|p s f|p f|k p s f|ds w' f|ds w' f];
    try contradiction; simpl.
  - unfold NormalDistribution.from_sample. simpl. rewrite Hw.
    destruct (_ || _); reflexivity.
  - unfold LogNormalDistribution.from_sample. simpl. rewrite Hw.
    destruct (_ || _); reflexivity.
  - destruct (accepts _ _ _ _); [|reflexivity].
    unfold ExponentialDistribution.from_sample. simpl. rewrite Hw.
    destruct (_ || _); reflexivity.
Qed.

Lemma positive_weight_items_none {A : Type} (items : list A) (w : list double) :
  Forall (fun x => (x >? 0)%D = false) w ->
  positive_weight_items items w = [].
Proof.
  intros H. unfold positive_weight_items.
  revert items. induction H as [|x w Hx _ IH]; intros [|i items];
    cbn [combine filter map fst snd]; try reflexivity.
  rewrite Hx. apply IH.
Qed.

(** UniformDistribution drops the items without a positive weight and
    returns at once when none is left. *)
Lemma uniform_from_sample_no_positive_weight (p : double * double)
    (s : list (double * double)) (f : bool) (items : list value)
    (w : list double) (inertia : option double) :
  Forall (fun x => (x >? 0)%D = false) w ->
  from_sample (Uniform p s f) items (WList w) inertia None = (Uniform p s f, None).
Proof.
  intros H. simpl. destruct inertia; simpl;
    unfold UniformDistribution.from_sample; simpl;
    rewrite (positive_weight_items_none items w H); simpl;
    destruct f; reflexivity.
Qed.

(** C8: from_sample( ['A', 'B'], weights=[0, 0] ) on
    DiscreteDistribution( {'A': 0.5, 'B': 0.5} ): the call returns normally
    and both probabilities are now not-a-number. *)
Theorem discrete_from_sample_all_zero_weights :
  from_sample coin [VSym "A"; VSym "B"] (WList [Fin 0; Fin 0]) None None
  = (Discrete [(VSym "A", NaN); (VSym "B", NaN)]
       DiscreteDistribution.empty_summaries false, None)
  /\ Characters [(VSym "A", NaN); (VSym "B", NaN)] <> parameters coin.
Proof.
  split; [evaluate; reflexivity | discriminate].
Qed.

(** ** log_probability outside the support *)

(** The guarded logarithm of a finite value is finite or negative
    infinity; so are the log-probabilities of a uniform distribution with
    finite bounds and of a discrete distribution with finite
    probabilities. *)
Lemma _log_finite_or_neginf (p : R) : finite_or_neginf (_log (Fin p)).
Proof.
  unfold _log, gtb, ltb, clog. Rsplit; simpl; try exact I; lra.
Qed.

Lemma uniform_log_probability_total (a b x : R) :
  exists lp, UniformDistribution._log_probability (Fin a) (Fin b) (Fin x) = Ok lp
             /\ finite_or_neginf lp.
Proof.
  unfold UniformDistribution._log_probability.
  destruct ((Fin x =? Fin a)%D && (Fin x =? Fin b)%D) eqn:E1.
  { eexists. split; [reflexivity | exact I]. }
  destruct ((Fin x >=? Fin a)%D && (Fin x <=? Fin b)%D) eqn:E2.
  2:{ eexists. split; [reflexivity | exact I]. }
  assert (Hab : b + - a <> 0).
  { intros Hz. revert E1 E2. unfold geb, leb, ltb, eqb. Rsplit; simpl;
      try discriminate; lra. }
  unfold cdiv. cbn. rewrite (Reqb_false _ _ Hab). cbn.
  eexists. split; [reflexivity | apply _log_finite_or_neginf].
Qed.

Lemma dict_get_finite (characters : dict) (symbol : value) :
  Forall (fun kv => is_finite (snd kv)) characters ->
  is_finite (Dict.get characters symbol (Fin 0)).
Proof.
  intros H. unfold Dict.get.
  induction H as [|[k v] rest Hv _ IH]; simpl; [exact I|].
  destruct (value_eqb k symbol); [exact Hv | exact IH].
Qed.

Lemma discrete_log_probability_total (characters : dict) (symbol : value) :
  Forall (fun kv => is_finite (snd kv)) characters ->
  finite_or_neginf (DiscreteDistribution.log_probability characters symbol).
Proof.
  intros H. unfold DiscreteDistribution.log_probability.
  pose proof (dict_get_finite characters symbol H) as Hf.
  destruct (Dict.get characters symbol 0); try contradiction.
  apply _log_finite_or_neginf.
Qed.

(** C2: LogNormalDistribution( 0, 1 ).log_probability at 0.0 and at -1.0
    is not-a-number, which is neither finite nor negative infinity. *)
Theorem lognormal_log_probability_nan :
  log_probability standard_lognormal (VNum 0) = Ok NaN
  /\ log_probability standard_lognormal (VNum (Fin (-1))) = Ok NaN
  /\ ~ finite_or_neginf NaN.
Proof.
  repeat split; try (evaluate; reflexivity). intros H. exact H.
Qed.

(** ** Mixtures *)

(** The loop of MixtureDistribution.log_probability runs over
    [len( self.parameters )], which is 2 whatever the number of children.
    With exactly two children it is the sum of the spec. *)
Lemma mixture_of_two_is_log_sum_exp (d0 d1 : Distribution) (w : list double)
    (f : bool) (symbol : value) :
  log_probability (Mixture [d0; d1] w f) symbol
  = spec_mixture_log_probability [d0; d1] w symbol.
Proof. reflexivity. Qed.

(** With three children or more, the children after the second are not
    read. *)
Lemma mixture_reads_two_children (d0 d1 : Distribution)
    (rest : list Distribution) (w0 w1 : double) (ws : list double)
    (f : bool) (symbol : value) :
  log_probability (Mixture (d0 :: d1 :: rest) (w0 :: w1 :: ws) f) symbol
  = log_probability (Mixture [d0; d1] [w0; w1] f) symbol.
Proof.
  simpl. destruct (log_probability d0 symbol); [|reflexivity]. simpl.
  destruct (log_probability d1 symbol); [|reflexivity]. simpl.
  destruct rest; reflexivity.
Qed.

(** With a single child the second index is out of range. *)
Lemma mixture_of_one_raises (d0 : Distribution) (w : list double) (f : bool)
    (symbol : value) (lp : double) :
  log_probability d0 symbol = Ok lp ->
  log_probability (Mixture [d0] w f) symbol = Raise IndexError.
Proof.
  intros H. simpl. rewrite H. simpl. destruct w; reflexivity.
Qed.


(** C9: the mixture of UniformDistribution( 0, 1 ) twice and
    UniformDistribution( 2, 3 ) with the default weights, at 2.5.  The
    third child alone gives the symbol a positive density, so the sum over
    the three children has the logarithm log(1/3); log_probability returns
    negative infinity. *)
Theorem mixture_of_three_drops_third_child :
  (m <- MixtureDistribution.__init__ [uniform_0_1; uniform_0_1; uniform_2_3]
          WNone None ;;
   log_probability m (VNum (Fin (5 / 2)))) = Ok NEGINF
  /\ (m <- MixtureDistribution.__init__ [uniform_0_1; uniform_0_1; uniform_2_3]
            WNone None ;;
      match m with
      | Mixture d w _ => spec_mixture_log_probability d w (VNum (Fin (5 / 2)))
      | _ => Raise TypeError
      end) = Ok (Fin (ln (1 / 3))).
Proof.
  split.
  - evaluate. reflexivity.
  - evaluate.
    replace (1 / (3 + - (2))) with 1 by Rsolve.
    rewrite ln_1, exp_0. evaluate.
    f_equal. apply Fin_eq. f_equal. lra.
Qed.

(** ** copy *)

(** The copy of a scalar parametric distribution is built, has the
    parameters of the original, no summaries of its own yet, and the
    frozen flag its constructor gives by default. *)
Lemma copy_scalar (d : Distribution) :
  scalar_parametric d = true ->
  exists c, copy d = Ok c
            /\ parameters c = parameters d
            /\ frozen c = constructor_default_frozen d.
Proof.
  intros H.
  destruct d as [[a b] s f|[m sd] s f|[m sd] s f|[[m sd] e] f|r s f|c s f|g f
                 |k p s f|ds w f|ds w f];
    simpl in H; try discriminate; eexists; repeat split.
Qed.

(** The constructors of the kernel densities, of the mixture and of the
    multivariate distribution test [if weights:]; copy hands them the
    stored weights, a numpy array, whose truth value is undefined as soon
    as it has two elements. *)
Lemma copy_of_two_weights_raises (d : Distribution) (w0 w1 : double)
    (ws : list double) :
  match parameters d with
  | Points _ _ w | Children _ w => w = w0 :: w1 :: ws
  | _ => False
  end ->
  copy d = Raise ValueError.
Proof.
  destruct d as [[a b] s f|[m sd] s f|[m sd] s f|[[m sd] e] f|r s f|c s f|g f
                 |k [[pts bw] w] s f|ds w f|ds w f];
    simpl; intros H; try contradiction; subst; reflexivity.
Qed.

(** C4: GaussianKernelDensity( [1, 2] ) is built, with the weights
    [0.5, 0.5]; its copy() raises ValueError. *)
Theorem kernel_density_copy_raises :
  (exists points bandwidth w0 w1,
      two_point_density
      = Ok (KernelDensity GaussianKernel (points, bandwidth, [w0; w1]) None false))
  /\ (d <- two_point_density ;; copy d) = Raise ValueError.
Proof.
  split.
  - do 4 eexists. reflexivity.
  - reflexivity.
Qed.

(** *** A composite and the store of its children *)

Lemma map_update_outside (st : Shared.store) (a : nat) (d : Distribution)
    (l : list nat) :
  ~ In a l -> map (Shared.update st a d) l = map st l.
Proof.
  intros Hn. apply map_ext_in. intros b Hb. unfold Shared.update.
  destruct (Nat.eqb_spec b a) as [->|_]; [contradiction | reflexivity].
Qed.

(** Fitting the children in the store and fitting them in the value give
    the same children and the same outcome, as long as no child is listed
    twice; the rest of the store is untouched. *)
Lemma fit_children_view (children : list nat) :
  NoDup children ->
  forall i items weights inertia st,
    let r := Shared.fit_children i children items weights inertia st in
    let v := MultivariateDistribution.each_column
               (fun d col => from_sample d col weights (Some inertia) None)
               i (map st children) items in
    map (fst r) children = fst v
    /\ snd r = snd v
    /\ forall a, ~ In a children -> fst r a = st a.
Proof.
  induction 1 as [|a rest Ha Hnd IH]; intros i items weights inertia st; cbn zeta.
  - repeat split.
  - cbn [Shared.fit_children MultivariateDistribution.each_column map].
    destruct (MultivariateDistribution.column i items) as [col|e].
    2:{ repeat split. }
    destruct (from_sample (st a) col weights (Some inertia) None) as [d' o] eqn:E.
    assert (Hhere : Shared.update st a d' a = d').
    { unfold Shared.update. rewrite Nat.eqb_refl. reflexivity. }
    destruct o as [e|].
    + cbn [fst snd map]. rewrite Hhere, map_update_outside by assumption.
      repeat split. intros b Hb. unfold Shared.update.
      destruct (Nat.eqb_spec b a) as [->|_]; [|reflexivity].
      exfalso. apply Hb. left. reflexivity.
    + specialize (IH (S i) items weights inertia (Shared.update st a d')).
      cbn zeta in IH. rewrite map_update_outside in IH by assumption.
      destruct IH as (IH1 & IH2 & IH3).
      destruct (MultivariateDistribution.each_column _ (S i) (map st rest) items)
        as [rest' o'].
      cbn [fst snd map] in *. rewrite IH1, IH2, (IH3 a Ha), Hhere.
      repeat split. intros b Hb. rewrite IH3.
      * unfold Shared.update. destruct (Nat.eqb_spec b a) as [->|_]; [|reflexivity].
        exfalso. apply Hb. left. reflexivity.
      * intros Hin. apply Hb. right. exact Hin.
Qed.

(** from_sample on a multivariate distribution whose children are all
    distinct is from_sample on its value. *)
Lemma shared_from_sample_view (self : Shared.multivariate) items weights inertia st :
  NoDup (Shared.distributions self) ->
  Shared.view (fst (Shared.from_sample self items weights inertia st)) self
  = fst (from_sample (Shared.view st self) items weights inertia None)
  /\ snd (Shared.from_sample self items weights inertia st)
     = snd (from_sample (Shared.view st self) items weights inertia None).
Proof.
  intros Hnd. destruct self as [children w f].
  unfold Shared.from_sample, Shared.view. cbn [Shared.frozen Shared.distributions Shared.weights from_sample].
  assert (Ha : accepts true false inertia None = true) by (destruct inertia; reflexivity).
  rewrite Ha. destruct f; [split; reflexivity|].
  pose proof (fit_children_view children Hnd 0%nat items weights
                (default default_inertia inertia) st) as (H1 & H2 & _).
  destruct (MultivariateDistribution.each_column _ 0%nat (map st children) items)
    as [ds' o'].
  cbn [fst snd] in *. rewrite H1, H2. split; reflexivity.
Qed.

(** A copy that is built shares its children with the original:
    MultivariateDistribution( [NormalDistribution( 0, 1 )] ) is copied, the
    copy is fitted on the two rows (5.0,) and (5.0,), and the parameters of
    the original have changed. *)
Lemma copy_shares_children :
  exists original duplicate st',
    Shared.__init__ [0%nat] WNone None = Ok original
    /\ Shared.copy original = Ok duplicate
    /\ Shared.from_sample duplicate [VTuple [VNum 5]; VTuple [VNum 5]]
         (WList [Fin 1; Fin 1]) None one_normal = (st', None)
    /\ parameters (Shared.view st' original)
       <> parameters (Shared.view one_normal original).
Proof.
  do 3 eexists. split; [reflexivity|]. split; [evaluate; reflexivity|].
  split.
  - evaluate. sqrt_of_zero. evaluate. reflexivity.
  - evaluate. intros H. injection H as H _. lra.
Qed.

(** C10 as stated fails: ExtremeValueDistribution( 0, 1, 0, frozen=True )
    is a frozen scalar parametric distribution and its copy is frozen. *)
Lemma copy_of_frozen_extreme_value_is_frozen :
  scalar_parametric frozen_gumbel = true
  /\ frozen frozen_gumbel = true
  /\ copy frozen_gumbel = Ok (ExtremeValue (Fin 0, Fin 1, Fin 0) true)
  /\ frozen (ExtremeValue (Fin 0, Fin 1, Fin 0) true) <> false.
Proof.
  repeat split. discriminate.
Qed.

(** C10, amended: for a scalar parametric distribution built with
    frozen=True, copy() returns an instance whose frozen flag is the
    default of the class constructor, not the flag of the original: False
    for Uniform, Normal, LogNormal, Exponential and Discrete, whose copy can
    be fitted, and True for ExtremeValue and Lambda. *)
Theorem copy_resets_frozen_to_default (d : Distribution) :
  scalar_parametric d = true ->
  frozen d = true ->
  exists c, copy d = Ok c
            /\ frozen c = constructor_default_frozen d
            /\ (frozen c = false <->
                match d with
                | ExtremeValue _ _ | Lambda _ _ => False
                | _ => True
                end).
Proof.
  intros Hs Hf. destruct (copy_scalar d Hs) as (c & Hc & _ & Hfc).
  exists c. split; [exact Hc|]. split; [exact Hfc|].
  rewrite Hfc. destruct d; simpl in *; try discriminate; intuition discriminate.
Qed.

Lemma copy_resets_frozen_to_default_witness :
  scalar_parametric (Normal (Fin 0, Fin 1) [] true) = true
  /\ frozen (Normal (Fin 0, Fin 1) [] true) = true
  /\ exists c, copy (Normal (Fin 0, Fin 1) [] true) = Ok c
               /\ frozen c = constructor_default_frozen (Normal (Fin 0, Fin 1) [] true)
               /\ (frozen c = false <-> True).
Proof.
  split; [reflexivity|]. split; [reflexivity|].
  exact (copy_resets_frozen_to_default (Normal (Fin 0, Fin 1) [] true)
           eq_refl eq_refl).
Defined.

(** ** Fitting that is not implemented *)

(** C5 as stated fails: a LambdaDistribution built with the defaults of its
    constructor is frozen, and from_sample on it returns normally. *)
Lemma lambda_default_from_sample_returns :
  from_sample (LambdaDistribution.__init__ always_zero None) [VNum 1] WNone None None
  = (Lambda always_zero true, None)
  /\ snd (from_sample (LambdaDistribution.__init__ always_zero None)
            [VNum 1] WNone None None) <> Some NotImplementedError.
Proof.
  split; [reflexivity | discriminate].
Qed.

(** C5, amended: from_sample on a MixtureDistribution raises
    NotImplementedError, whatever its frozen flag; on a LambdaDistribution it
    raises NotImplementedError when the instance is not frozen, and an
    instance built with the defaults of the constructor is frozen: the call
    returns normally and leaves the object as it was. *)
Theorem unsupported_from_sample (items : list value) (weights : wopt) :
  (forall ds w f,
      from_sample (Mixture ds w f) items weights None None
      = (Mixture ds w f, Some NotImplementedError))
  /\ (forall g,
         from_sample (Lambda g false) items weights None None
         = (Lambda g false, Some NotImplementedError))
  /\ (forall g,
         from_sample (LambdaDistribution.__init__ g None) items weights None None
         = (LambdaDistribution.__init__ g None, None)).
Proof.
  repeat split.
Qed.

(** * Further properties of the code *)

(** ** Uniform distributions *)

Lemma minimum_Fin (a b : R) : numpy.minimum (Fin a) (Fin b) = Fin (Rmin a b).
Proof.
  unfold numpy.minimum, ltb, Rmin. simpl.
  destruct (Rle_dec a b) as [H|H].
  - rewrite Rltb_false by lra. reflexivity.
  - rewrite Rltb_true by lra. reflexivity.
Qed.

Lemma maximum_Fin (a b : R) : numpy.maximum (Fin a) (Fin b) = Fin (Rmax a b).
Proof.
  unfold numpy.maximum, gtb, ltb, Rmax. simpl.
  destruct (Rle_dec a b) as [H|H].
  - destruct (Rlt_dec a b) as [L|L].
    + rewrite (Rltb_true _ _ L). reflexivity.
    + rewrite (Rltb_false _ _ L). apply Fin_eq. lra.
  - rewrite Rltb_false by lra. reflexivity.
Qed.

Lemma min_floats (x : R) (rest : list R) :
  numpy.min (floats (x :: rest)) = Ok (Fin (Rmin_from x rest)).
Proof.
  simpl. f_equal. unfold Rmin_from. revert x.
  induction rest as [|y rest IH]; intros x; simpl; [reflexivity|].
  rewrite minimum_Fin. apply IH.
Qed.

Lemma max_floats (x : R) (rest : list R) :
  numpy.max (floats (x :: rest)) = Ok (Fin (Rmax_from x rest)).
Proof.
  simpl. f_equal. unfold Rmax_from. revert x.
  induction rest as [|y rest IH]; intros x; simpl; [reflexivity|].
  rewrite maximum_Fin. apply IH.
Qed.

Lemma Rmin_from_spec (x : R) (rest : list R) :
  In (Rmin_from x rest) (x :: rest)
  /\ forall y, In y (x :: rest) -> Rmin_from x rest <= y.
Proof.
  unfold Rmin_from. revert x. induction rest as [|z rest IH]; intros x; simpl.
  - split; [left; reflexivity|]. intros y [<-|[]]. lra.
  - destruct (IH (Rmin x z)) as (Hin & Hle). split.
    + destruct Hin as [E|Hin]; [|right; right; exact Hin].
      rewrite <- E. unfold Rmin. destruct (Rle_dec x z); [left|right; left]; reflexivity.
    + intros y Hy.
      assert (Hm : fold_left Rmin rest (Rmin x z) <= Rmin x z)
        by (apply Hle; left; reflexivity).
      pose proof (Rmin_l x z). pose proof (Rmin_r x z).
      destruct Hy as [<-|[<-|Hy]]; try lra.
      apply Hle. right. exact Hy.
Qed.

Lemma Rmax_from_spec (x : R) (rest : list R) :
  In (Rmax_from x rest) (x :: rest)
  /\ forall y, In y (x :: rest) -> y <= Rmax_from x rest.
Proof.
  unfold Rmax_from. revert x. induction rest as [|z rest IH]; intros x; simpl.
  - split; [left; reflexivity|]. intros y [<-|[]]. lra.
  - destruct (IH (Rmax x z)) as (Hin & Hle). split.
    + destruct Hin as [E|Hin]; [|right; right; exact Hin].
      rewrite <- E. unfold Rmax. destruct (Rle_dec x z); [right; left|left]; reflexivity.
    + intros y Hy.
      assert (Hm : Rmax x z <= fold_left Rmax rest (Rmax x z))
        by (apply Hle; left; reflexivity).
      pose proof (Rmax_l x z). pose proof (Rmax_r x z).
      destruct Hy as [<-|[<-|Hy]]; try lra.
      apply Hle. right. exact Hy.
Qed.

(** The density of a uniform distribution over [a, b] with a < b:
    log( 1/(b-a) ) on the interval, its ends included, and negative
    infinity outside. *)
Lemma uniform_density (a b x : R) (s : list (double * double)) (f : bool) :
  a < b ->
  (a <= x <= b ->
   log_probability (Uniform (Fin a, Fin b) s f) (VNum (Fin x))
   = Ok (Fin (ln (1 / (b - a)))))
  /\ (x < a \/ b < x ->
      log_probability (Uniform (Fin a, Fin b) s f) (VNum (Fin x)) = Ok NEGINF).
Proof.
  intros Hab. split; intros Hx; crunch; Rsplit; try reflexivity; try lra.
  all: try (exfalso; match goal with H : 0 < 1 / _ -> False |- _ => apply H end;
            apply Rdiv_lt_0_compat; lra).
  all: try (exfalso; assert (0 < 1 / (b + - a)) by (apply Rdiv_lt_0_compat; lra); lra).
Qed.



Lemma length_numbers (xs : list R) : length (numbers xs) = length xs.
Proof. unfold numbers, floats. rewrite !length_map. reflexivity. Qed.

(** from_sample with inertia 0 on a non-empty sample without weights: the
    parameters are the smallest and the largest item. *)
Lemma uniform_from_sample_min_max (pa pb : R) (s : list (double * double))
    (x : R) (rest : list R) :
  from_sample (Uniform (Fin pa, Fin pb) s false) (numbers (x :: rest)) WNone
    None None
  = (Uniform (Fin (Rmin_from x rest), Fin (Rmax_from x rest)) s false, None).
Proof.
  cbn [from_sample accepts default]. unfold UniformDistribution.from_sample.
  cbn [is_None]. rewrite length_numbers. cbn [length Nat.eqb].
  rewrite as_floats_numbers. cbn [bind].
  rewrite min_floats, max_floats. cbn [bind commit].
  unfold blend, default_inertia. cbn.
  f_equal. f_equal. f_equal; apply Fin_eq; lra.
Qed.



(** summarize on non-empty batches without weights collects the smallest
    and the largest item of each. *)
Lemma summarize_batches_uniform (p : double * double) (f : bool)
    (batches : list (R * list R)) :
  forall s,
  summarize_batches (Uniform p s f) (map unweighted_call batches)
  = Uniform p
      (s ++ map (fun b => (Fin (Rmin_from (fst b) (snd b)),
                           Fin (Rmax_from (fst b) (snd b)))) batches) f.
Proof.
  unfold summarize_batches.
  induction batches as [|[x rest] batches IH]; intros s; simpl.
  - rewrite app_nil_r. reflexivity.
  - unfold UniformDistribution.summarize. cbn [is_None].
    unfold batch_items. cbn [fst snd].
    rewrite length_numbers. cbn [length Nat.eqb].
    rewrite as_floats_numbers. cbn [bind].
    rewrite min_floats, max_floats. cbn [bind commit fst].
    rewrite IH, <- app_assoc. reflexivity.
Qed.

Lemma min_unique (m m' : R) (l : list R) :
  In m l -> (forall y, In y l -> m <= y) ->
  In m' l -> (forall y, In y l -> m' <= y) -> m = m'.
Proof. intros H1 H2 H3 H4. specialize (H2 m' H3). specialize (H4 m H1). lra. Qed.

Lemma max_unique (m m' : R) (l : list R) :
  In m l -> (forall y, In y l -> y <= m) ->
  In m' l -> (forall y, In y l -> y <= m') -> m = m'.
Proof. intros H1 H2 H3 H4. specialize (H2 m' H3). specialize (H4 m H1). lra. Qed.

(** The smallest of the smallest items of the batches is the smallest item
    of all, and likewise the largest. *)
Lemma min_of_mins (b : R * list R) (batches : list (R * list R)) :
  Rmin_from (Rmin_from (fst b) (snd b))
    (map (fun b => Rmin_from (fst b) (snd b)) batches)
  = Rmin_from (fst b) (snd b ++ concat (map batch_items batches)).
Proof.
  set (all := fst b :: snd b ++ concat (map batch_items batches)).
  set (mins := Rmin_from (fst b) (snd b)
               :: map (fun b => Rmin_from (fst b) (snd b)) batches).
  assert (Hmins : forall m, In m mins ->
            exists c, In c (b :: batches) /\ m = Rmin_from (fst c) (snd c)).
  { intros m [<-|Hm]; [exists b; split; [left|]; reflexivity|].
    apply in_map_iff in Hm. destruct Hm as (c & <- & Hc).
    exists c. split; [right; exact Hc | reflexivity]. }
  assert (Hall : forall y, In y all <->
            exists c, In c (b :: batches) /\ In y (batch_items c)).
  { intros y. unfold all. change (fst b :: snd b ++ ?l) with (batch_items b ++ l).
    rewrite in_app_iff, in_concat. split.
    - intros [H|(l & Hl & Hy)]; [exists b; split; [left; reflexivity|exact H]|].
      apply in_map_iff in Hl. destruct Hl as (c & <- & Hc).
      exists c. split; [right; exact Hc | exact Hy].
    - intros (c & [<-|Hc] & Hy); [left; exact Hy|].
      right. exists (batch_items c). split; [|exact Hy].
      apply in_map_iff. exists c. split; [reflexivity | exact Hc]. }
  destruct (Rmin_from_spec (Rmin_from (fst b) (snd b))
              (map (fun b => Rmin_from (fst b) (snd b)) batches)) as (Hin & Hle).
  destruct (Rmin_from_spec (fst b) (snd b ++ concat (map batch_items batches)))
    as (Hin' & Hle').
  fold mins in Hin, Hle. fold all in Hin', Hle'.
  apply (min_unique _ _ all); try assumption.
  - destruct (Hmins _ Hin) as (c & Hc & ->).
    apply Hall. exists c. split; [exact Hc|].
    apply (Rmin_from_spec (fst c) (snd c)).
  - intros y Hy. apply Hall in Hy. destruct Hy as (c & Hc & Hy).
    apply Rle_trans with (Rmin_from (fst c) (snd c)).
    + apply Hle. destruct Hc as [<-|Hc]; [left; reflexivity|].
      right. apply in_map_iff. exists c. split; [reflexivity | exact Hc].
    + apply (Rmin_from_spec (fst c) (snd c)). exact Hy.
Qed.

Lemma max_of_maxs (b : R * list R) (batches : list (R * list R)) :
  Rmax_from (Rmax_from (fst b) (snd b))
    (map (fun b => Rmax_from (fst b) (snd b)) batches)
  = Rmax_from (fst b) (snd b ++ concat (map batch_items batches)).
Proof.
  set (all := fst b :: snd b ++ concat (map batch_items batches)).
  set (maxs := Rmax_from (fst b) (snd b)
               :: map (fun b => Rmax_from (fst b) (snd b)) batches).
  assert (Hmaxs : forall m, In m maxs ->
            exists c, In c (b :: batches) /\ m = Rmax_from (fst c) (snd c)).
  { intros m [<-|Hm]; [exists b; split; [left|]; reflexivity|].
    apply in_map_iff in Hm. destruct Hm as (c & <- & Hc).
    exists c. split; [right; exact Hc | reflexivity]. }
  assert (Hall : forall y, In y all <->
            exists c, In c (b :: batches) /\ In y (batch_items c)).
  { intros y. unfold all. change (fst b :: snd b ++ ?l) with (batch_items b ++ l).
    rewrite in_app_iff, in_concat. split.
    - intros [H|(l & Hl & Hy)]; [exists b; split; [left; reflexivity|exact H]|].
      apply in_map_iff in Hl. destruct Hl as (c & <- & Hc).
      exists c. split; [right; exact Hc | exact Hy].
    - intros (c & [<-|Hc] & Hy); [left; exact Hy|].
      right. exists (batch_items c). split; [|exact Hy].
      apply in_map_iff. exists c. split; [reflexivity | exact Hc]. }
  destruct (Rmax_from_spec (Rmax_from (fst b) (snd b))
              (map (fun b => Rmax_from (fst b) (snd b)) batches)) as (Hin & Hle).
  destruct (Rmax_from_spec (fst b) (snd b ++ concat (map batch_items batches)))
    as (Hin' & Hle').
  fold maxs in Hin, Hle. fold all in Hin', Hle'.
  apply (max_unique _ _ all); try assumption.
  - destruct (Hmaxs _ Hin) as (c & Hc & ->).
    apply Hall. exists c. split; [exact Hc|].
    apply (Rmax_from_spec (fst c) (snd c)).
  - intros y Hy. apply Hall in Hy. destruct Hy as (c & Hc & Hy).
    apply Rle_trans with (Rmax_from (fst c) (snd c)).
    + apply (Rmax_from_spec (fst c) (snd c)). exact Hy.
    + apply Hle. destruct Hc as [<-|Hc]; [left; reflexivity|].
      right. apply in_map_iff. exists c. split; [reflexivity | exact Hc].
Qed.

(** The round trip of the uniform distribution: summarize on each of the
    non-empty batches and then from_summaries leave the distribution as
    from_sample on the batches put together does. *)
Theorem uniform_round_trip (pa pb : R) (b : R * list R)
    (batches : list (R * list R)) :
  summarize_then_commit (Uniform (Fin pa, Fin pb) [] false)
    (map unweighted_call (b :: batches))
  = fst (from_sample (Uniform (Fin pa, Fin pb) [] false)
           (numbers (concat (map batch_items (b :: batches)))) WNone None None).
Proof.
  unfold summarize_then_commit. rewrite summarize_batches_uniform.
  cbn [map concat app]. unfold batch_items at 1. cbn [app].
  rewrite uniform_from_sample_min_max.
  cbn [from_summaries fst default]. unfold UniformDistribution.from_summaries.
  cbn [map fst snd]. rewrite !map_map. cbn [fst snd].
  change (numpy.min (Fin ?m :: map ?g ?l)) with (numpy.min (Fin m :: map g l)).
  replace (Fin (Rmin_from (fst b) (snd b))
           :: map (fun x => Fin (Rmin_from (fst x) (snd x))) batches)
    with (floats (Rmin_from (fst b) (snd b)
                  :: map (fun x => Rmin_from (fst x) (snd x)) batches))
    by (unfold floats; cbn [map]; rewrite map_map; reflexivity).
  replace (Fin (Rmax_from (fst b) (snd b))
           :: map (fun x => Fin (Rmax_from (fst x) (snd x))) batches)
    with (floats (Rmax_from (fst b) (snd b)
                  :: map (fun x => Rmax_from (fst x) (snd x)) batches))
    by (unfold floats; cbn [map]; rewrite map_map; reflexivity).
  rewrite min_floats, max_floats. cbn [bind commit fst].
  rewrite min_of_mins, max_of_maxs.
  unfold blend, default_inertia. cbn.
  f_equal. f_equal; apply Fin_eq; lra.
Qed.

(** ** Normal and log-normal densities *)

Lemma c2pi_pos : 0 < 250662827463 / 100000000000.
Proof. lra. Qed.

(** The Gaussian log-density in closed form, for a positive standard
    deviation. *)
Lemma normal_density (mu sigma x : R) (s : list (double * double * double))
    (f : bool) :
  0 < sigma ->
  log_probability (Normal (Fin mu, Fin sigma) s f) (VNum (Fin x))
  = Ok (Fin (ln (1 / (sigma * (250662827463 / 100000000000)))
             - (x - mu) * (x - mu) / (2 * (sigma * sigma)))).
Proof.
  intros Hs. pose proof c2pi_pos as Hc.
  assert (Hp : 0 < sigma * (250662827463 / 100000000000))
    by (apply Rmult_lt_0_compat; assumption).
  assert (Hq : 0 < 1 / (sigma * (250662827463 / 100000000000)))
    by (apply Rdiv_lt_0_compat; lra).
  assert (Hss : 0 < sigma * sigma) by (apply Rmult_lt_0_compat; assumption).
  crunch.
  rewrite (Reqb_false sigma 0) by lra.
  rewrite (Reqb_false (sigma * (250662827463 / 100000000000)) 0) by lra.
  rewrite (Reqb_false (2 * (sigma * sigma)) 0) by lra.
  rewrite (Rltb_true 0 (1 / (sigma * (250662827463 / 100000000000)))) by assumption.
  reflexivity.
Qed.





(** ** Inertia *)

(** The fit of a normal distribution with any finite inertia. *)
Lemma fit_mean_std_with_inertia (pm ps m i : R) (xs ws : list R) :
  length xs = length ws -> Rsum ws <> 0 ->
  Nat.ltb 1 (numpy.count_nonzero (floats ws)) = true ->
  fit_mean_std (Fin pm, Fin ps) (floats xs) (floats ws) (Fin i) (Fin m)
  = Ok (Fin (pm * i + weighted_mean xs ws * (1 - i)),
        Fin (ps * i + Rmax (sqrt (weighted_variance xs ws)) m * (1 - i))).
Proof.
  intros Hl Hw Hn. unfold fit_mean_std.
  rewrite average_floats by assumption. cbn [bind]. rewrite Hn.
  rewrite squares_minus_floats, dot_floats by (rewrite length_map; assumption).
  cbn [bind]. rewrite sum_floats. cbn [div]. rewrite (Reqb_false _ _ Hw).
  rewrite std_of_finite_variance, max_of_pair_Fin.
  unfold blend. cbn. f_equal. f_equal; apply Fin_eq; try lra.
  rewrite Rdot_shifted by assumption.
  replace ((Rdot (squares xs) ws - weighted_mean xs ws * weighted_mean xs ws * Rsum ws)
             / Rsum ws)
    with (weighted_variance xs ws)
    by (unfold weighted_variance; field; assumption).
  lra.
Qed.

Lemma normal_from_sample_with_inertia (pm ps i : R) (xs ws : list R)
    (s : list (double * double * double)) (inertia : option double) :
  length xs = length ws -> 0 < Rsum ws ->
  Nat.ltb 1 (numpy.count_nonzero (floats ws)) = true ->
  default default_inertia inertia = Fin i ->
  from_sample (Normal (Fin pm, Fin ps) s false) (numbers xs) (WList (floats ws))
    inertia None
  = (Normal (Fin (pm * i + weighted_mean xs ws * (1 - i)),
             Fin (ps * i + Rmax (sqrt (weighted_variance xs ws)) (1 / 100) * (1 - i)))
       s false, None).
Proof.
  intros Hl Hw Hn Hi. cbn [from_sample]. rewrite Hi.
  unfold NormalDistribution.from_sample.
  assert (Hlen : Nat.eqb (length (numbers xs)) 0 = false).
  { destruct xs as [|x xs]; [|reflexivity].
    destruct ws; [simpl in Hw; lra | discriminate]. }
  rewrite Hlen. cbn [orb is_None elements].
  rewrite sum_floats. cbn [eqb]. rewrite Reqb_false by lra.
  rewrite as_floats_numbers. cbn [bind].
  unfold default_min_std. cbn [default].
  rewrite fit_mean_std_with_inertia by (assumption || lra). reflexivity.
Qed.


Lemma count_nonzero_ones2 :
  Nat.ltb 1 (numpy.count_nonzero (floats [1; 1])) = true.
Proof. evaluate. reflexivity. Qed.


(** A sample of one item: "Only one data point, can't update std".  The
    mean becomes the item and the standard deviation stays the prior one,
    raised to the floor. *)
Theorem normal_single_item_keeps_std (pm ps x : R)
    (s : list (double * double * double)) :
  from_sample (Normal (Fin pm, Fin ps) s false) [VNum (Fin x)] WNone None None
  = (Normal (Fin x, Fin (Rmax ps (1 / 100))) s false, None).
Proof.
  cbn [from_sample default]. unfold NormalDistribution.from_sample.
  cbn [length Nat.eqb orb is_None]. unfold numpy.ones_like. cbn [length numpy.ones repeat].
  change [Fin 1] with (floats [1]). rewrite sum_floats. cbn [eqb Rsum fold_right].
  rewrite Reqb_false by lra. cbn [as_floats bind].
  unfold fit_mean_std. change [Fin x] with (floats [x]).
  rewrite average_floats by (reflexivity || (simpl; lra)). cbn [bind].
  replace (Nat.ltb 1 (numpy.count_nonzero (floats [1]))) with false
    by (evaluate; reflexivity).
  cbn [bind snd]. unfold default_min_std. rewrite max_of_pair_Fin.
  unfold blend, default_inertia, weighted_mean. cbn.
  f_equal. f_equal. f_equal; apply Fin_eq; lra.
Qed.

(** ** Exponential distributions *)

(** summarize on weighted batches collects the weighted mean and the total
    weight of each. *)
Lemma summarize_batches_exponential (rate : double) (f : bool)
    (batches : list (list R * list R)) :
  Forall weighted_batch batches ->
  forall s,
  summarize_batches (Exponential rate s f) (map as_call batches)
  = Exponential rate
      (s ++ map (fun b => (Fin (weighted_mean (fst b) (snd b)),
                           Fin (Rsum (snd b)))) batches) f.
Proof.
  unfold summarize_batches.
  induction 1 as [|[xs ws] batches (Hl & Hnn & Hw) _ IH]; intros s; simpl.
  - rewrite app_nil_r. reflexivity.
  - unfold ExponentialDistribution.summarize. simpl in *.
    rewrite as_floats_numbers. cbn [bind].
    rewrite average_floats by (assumption || lra). cbn [bind commit fst].
    rewrite sum_floats, IH, <- app_assoc. reflexivity.
Qed.





(** ** Discrete distributions *)

(** A category that is not in the dictionary has log-probability negative
    infinity, and so has a category of probability zero; with finite
    probabilities no symbol gets anything but a finite value or negative
    infinity. *)
Theorem discrete_log_probability_range (characters : dict)
    (s : dict * double) (f : bool) (symbol : value) :
  Forall (fun kv => is_finite (snd kv)) characters ->
  (exists lp, log_probability (Discrete characters s f) symbol = Ok lp
              /\ finite_or_neginf lp)
  /\ (Dict.lookup characters symbol = None ->
      log_probability (Discrete characters s f) symbol = Ok NEGINF)
  /\ (Dict.lookup characters symbol = Some (Fin 0) ->
      log_probability (Discrete characters s f) symbol = Ok NEGINF).
Proof.
  intros H. cbn [log_probability]. unfold DiscreteDistribution.log_probability.
  repeat split.
  - eexists. split; [reflexivity|].
    pose proof (dict_get_finite characters symbol H) as Hf.
    destruct (Dict.get characters symbol 0); try contradiction.
    apply _log_finite_or_neginf.
  - intros E. unfold Dict.get. rewrite E. evaluate. reflexivity.
  - intros E. unfold Dict.get. rewrite E. evaluate. reflexivity.
Qed.

Lemma discrete_log_probability_range_witness :
  Forall (fun kv => is_finite (snd kv)) coin_characters
  /\ ((exists lp, log_probability (Discrete coin_characters ([], Fin 0) false)
                    (VSym "C") = Ok lp
                  /\ finite_or_neginf lp)
      /\ (Dict.lookup coin_characters (VSym "C") = None ->
          log_probability (Discrete coin_characters ([], Fin 0) false) (VSym "C")
          = Ok NEGINF)
      /\ (Dict.lookup coin_characters (VSym "C") = Some (Fin 0) ->
          log_probability (Discrete coin_characters ([], Fin 0) false) (VSym "C")
          = Ok NEGINF)).
Proof.
  assert (H : Forall (fun kv => is_finite (snd kv)) coin_characters)
    by (repeat constructor).
  split; [exact H|].
  exact (discrete_log_probability_range coin_characters ([], Fin 0) false
           (VSym "C") H).
Defined.

(** *** The probabilities after a fit *)

Lemma accumulate_here (k' k : value) (v w : double) (rest : dict) :
  value_eqb k' k = true ->
  Dict.accumulate ((k', v) :: rest) k w = (k', (v + w)%D) :: rest.
Proof.
  intros E. unfold Dict.accumulate. cbn [Dict.lookup]. rewrite E.
  cbn [Dict.set]. rewrite E. reflexivity.
Qed.

Lemma accumulate_further (k' k : value) (v w : double) (rest : dict) :
  value_eqb k' k = false ->
  Dict.accumulate ((k', v) :: rest) k w = (k', v) :: Dict.accumulate rest k w.
Proof.
  intros E. unfold Dict.accumulate. cbn [Dict.lookup]. rewrite E.
  destruct (Dict.lookup rest k); cbn [Dict.set]; rewrite E; reflexivity.
Qed.

(** Adding a finite weight to a dictionary of finite values keeps the
    values finite and raises their sum by the weight. *)
Lemma accumulate_finite (d : dict) (k : value) (w : R) :
  forall rs, map snd d = floats rs ->
  exists rs', map snd (Dict.accumulate d k (Fin w)) = floats rs'
              /\ Rsum rs' = Rsum rs + w.
Proof.
  induction d as [|[k' v] rest IH]; intros rs Hrs.
  - destruct rs; [|discriminate]. exists [w]. split; [reflexivity | simpl; lra].
  - destruct rs as [|r rs]; [discriminate|]. simpl in Hrs.
    injection Hrs as Hv Hrest. subst v.
    destruct (value_eqb k' k) eqn:E.
    + rewrite accumulate_here by assumption.
      exists ((r + w) :: rs). split; [simpl; rewrite Hrest; reflexivity | simpl; lra].
    + rewrite accumulate_further by assumption.
      destruct (IH rs Hrest) as (rs' & H1 & H2).
      exists (r :: rs'). split; [simpl; rewrite H1; reflexivity | simpl; lra].
Qed.

Lemma accumulate_all_finite (kws : list (value * double)) :
  forall qs d rs,
  map snd kws = floats qs -> map snd d = floats rs ->
  exists rs', map snd (Dict.accumulate_all d kws) = floats rs'
              /\ Rsum rs' = Rsum rs + Rsum qs.
Proof.
  unfold Dict.accumulate_all.
  induction kws as [|[k w] kws IH]; intros qs d rs Hq Hd.
  - destruct qs; [|discriminate]. exists rs. split; [exact Hd | simpl; lra].
  - destruct qs as [|q qs]; [discriminate|]. simpl in Hq.
    injection Hq as Hw Hq. subst w. cbn [fold_left fst snd].
    destruct (accumulate_finite d k q rs Hd) as (rs1 & H1 & H2).
    destruct (IH qs _ rs1 Hq H1) as (rs' & H3 & H4).
    exists rs'. split; [exact H3 | simpl; lra].
Qed.

Lemma map_snd_combine {A B : Type} (a : list A) (b : list B) :
  length a = length b -> map snd (combine a b) = b.
Proof.
  revert b. induction a as [|x a IH]; intros [|y b] Hl; simpl in *;
    try discriminate; [reflexivity|].
  rewrite IH by lia. reflexivity.
Qed.

Lemma Rsum_scaled (c : R) (l : list R) :
  Rsum (map (fun r => r * c) l) = Rsum l * c.
Proof. induction l as [|x l IH]; simpl; [lra | rewrite IH; lra]. Qed.

Lemma Rsum_divided (c : R) (l : list R) :
  Rsum (map (fun r => r / c) l) = Rsum l / c.
Proof. apply Rsum_scaled. Qed.

(** The fit from normalised weights that sum to one. *)
Lemma discrete_fit_from_normalised (prior : dict) (items : list value)
    (nw : list R) (ps : list R) :
  length items = length nw -> Rsum nw = 1 ->
  map snd prior = floats ps ->
  exists rs,
    map snd
      (Dict.accumulate_all
         (Dict.map_values (fun weight => weight * (1 - Fin 0))%D
            (Dict.accumulate_all [] (combine items (floats nw))))
         (map (fun cw => (fst cw, (snd cw * Fin 0)%D)) prior))
    = floats rs
    /\ Rsum rs = 1.
Proof.
  intros Hl Hn Hp.
  destruct (accumulate_all_finite (combine items (floats nw)) nw [] [])
    as (r1 & H1 & H2).
  { apply map_snd_combine. rewrite length_floats. exact Hl. }
  { reflexivity. }
  destruct (accumulate_all_finite
              (map (fun cw => (fst cw, (snd cw * Fin 0)%D)) prior)
              (map (fun p => p * 0) ps)
              (Dict.map_values (fun weight => weight * (1 - Fin 0))%D
                 (Dict.accumulate_all [] (combine items (floats nw))))
              (map (fun r => r * (1 - 0)) r1)) as (rs & H3 & H4).
  { rewrite map_map. cbn [snd].
    rewrite <- (map_map snd (fun v => (v * Fin 0)%D)), Hp.
    unfold floats. rewrite !map_map. reflexivity. }
  { unfold Dict.map_values. rewrite map_map. cbn [snd].
    rewrite <- (map_map snd (fun v => (v * (1 - Fin 0))%D)), H1.
    unfold floats. rewrite !map_map. reflexivity. }
  exists rs. split; [exact H3|].
  rewrite H4, !Rsum_scaled, H2. simpl. lra.
Qed.

Lemma Rsum_ones (n : nat) : Rsum (repeat 1 n) = INR n.
Proof.
  induction n as [|n IH]; [reflexivity|].
  cbn [repeat Rsum fold_right]. fold (Rsum (repeat 1 n)).
  rewrite IH, S_INR. lra.
Qed.



(** *** sample *)





(** ** Choosing a child of a mixture *)



(** ** Kernel densities and the weights of the constructors *)

Lemma divide_floats (l : list R) (c : R) :
  c <> 0 -> numpy.divide (floats l) (Fin c) = floats (map (fun r => r / c) l).
Proof.
  intros Hc. unfold numpy.divide, floats. rewrite !map_map. apply map_ext.
  intros w. cbn. rewrite (Reqb_false _ _ Hc). reflexivity.
Qed.

Lemma ones_floats (n : nat) : numpy.ones n = floats (repeat 1 n).
Proof.
  unfold numpy.ones, floats. induction n as [|n IH]; [reflexivity|].
  cbn [repeat map]. rewrite IH. reflexivity.
Qed.

(** The weights a constructor stores when a non-empty list is given whose
    sum is not zero: the list divided by its sum. *)
Lemma normalise_list (n : nat) (ws : list R) :
  ws <> [] -> Rsum ws <> 0 ->
  exists rs, KernelDensity.normalise n (WList (floats ws)) = Ok (floats rs)
             /\ length rs = length ws /\ Rsum rs = 1.
Proof.
  intros Hne Hw. unfold KernelDensity.normalise. cbn [truth bind].
  rewrite length_floats.
  assert (Hl : Nat.eqb (length ws) 0 = false)
    by (destruct ws; [contradiction | reflexivity]).
  rewrite Hl. cbn [negb elements]. rewrite sum_floats, divide_floats by exact Hw.
  eexists. split; [reflexivity|]. split.
  - rewrite length_map. reflexivity.
  - rewrite Rsum_divided. field. exact Hw.
Qed.



(** *** from_sample on a kernel density *)

(** from_sample on a kernel density whose points and weights are aligned,
    with the new points unweighted: with inertia 0 the new points replace
    the old ones, with any other inertia they are appended to them; points
    and weights stay aligned. *)
Theorem kernel_from_sample_sizes (shape : kernel) (points : list double)
    (bandwidth : double) (weights : list double)
    (s : option (list value * wopt)) (xs : list R) (i : R) :
  length points = length weights ->
  exists points' weights',
    from_sample (KernelDensity shape (points, bandwidth, weights) s false)
      (numbers xs) WNone (Some (Fin i)) None
    = (KernelDensity shape (points', bandwidth, weights') s false, None)
    /\ length points' = length weights'
    /\ (i = 0 -> points' = floats xs)
    /\ (i <> 0 -> points' = points ++ floats xs).
Proof.
  intros Hl. cbn [from_sample accepts default].
  unfold KernelDensity.from_sample. rewrite as_floats_numbers. cbn [bind].
  unfold KernelDensity.normalise. cbn [truth bind eqb].
  destruct (Req_dec_T i 0) as [E|N].
  - rewrite (Reqb_true _ _ E). do 2 eexists. split; [reflexivity|].
    split; [|split; [reflexivity | contradiction]].
    unfold numpy.divide, numpy.ones. rewrite length_map, repeat_length. reflexivity.
  - rewrite (Reqb_false _ _ N). do 2 eexists. split; [reflexivity|].
    split; [|split; [contradiction | reflexivity]].
    unfold numpy.times, numpy.divide, numpy.ones.
    rewrite !length_app, !length_map, repeat_length, Hl. reflexivity.
Qed.

Lemma kernel_from_sample_sizes_witness :
  length [Fin 1; Fin 2] = length [Fin (1 / 2); Fin (1 / 2)]
  /\ exists points' weights',
       from_sample
         (KernelDensity GaussianKernel
            ([Fin 1; Fin 2], Fin 1, [Fin (1 / 2); Fin (1 / 2)]) None false)
         (numbers [7]) WNone (Some (Fin (1 / 2))) None
       = (KernelDensity GaussianKernel (points', Fin 1, weights') None false, None)
       /\ length points' = length weights'
       /\ (1 / 2 = 0 -> points' = floats [7])
       /\ (1 / 2 <> 0 -> points' = [Fin 1; Fin 2] ++ floats [7]).
Proof.
  split; [reflexivity|].
  exact (kernel_from_sample_sizes GaussianKernel [Fin 1; Fin 2] (Fin 1)
           [Fin (1 / 2); Fin (1 / 2)] None [7] (1 / 2) eq_refl).
Defined.

(** *** summarize and from_summaries of the base class *)

(** Distribution.summarize without weights stores the batches put
    together. *)
Lemma summarize_batches_kernel (shape : kernel)
    (p : list double * double * list double) (f : bool)
    (batches : list (list value)) :
  forall first,
  summarize_batches (KernelDensity shape p (Some (first, WNone)) f)
    (map (fun b => (b, WNone)) batches)
  = KernelDensity shape p (Some (first ++ concat batches, WNone)) f.
Proof.
  unfold summarize_batches.
  induction batches as [|b batches IH]; intros first; simpl.
  - rewrite app_nil_r. reflexivity.
  - rewrite IH, <- app_assoc. reflexivity.
Qed.


(** With weights, the second summarize turns the stored weights into an
    array; from_summaries then hands from_sample an array of two or more
    weights, whose truth value is undefined: ValueError, and neither the
    parameters nor the stored sample change. *)
Theorem kernel_weighted_summaries_raise (shape : kernel)
    (p : list double * double * list double) (x1 x2 : list R)
    (w1 w2 : list double) :
  (2 <= length (w1 ++ w2))%nat ->
  from_summaries
    (summarize_batches (KernelDensity shape p None false)
       [(numbers x1, WList w1); (numbers x2, WList w2)]) None
  = (KernelDensity shape p
       (Some (numbers x1 ++ numbers x2, WArray (w1 ++ w2))) false,
     Some ValueError).
Proof.
  intros Hl. unfold summarize_batches.
  cbn [fold_left fst snd summarize Base.summarize commit is_None elements].
  cbn [from_summaries kernel_from_summaries].
  unfold KernelDensity.from_sample.
  replace (numbers x1 ++ numbers x2) with (numbers (x1 ++ x2))
    by (unfold numbers, floats; rewrite !map_app; reflexivity).
  rewrite as_floats_numbers. cbn [bind].
  unfold KernelDensity.normalise.
  destruct (w1 ++ w2) as [|a [|a' l]] eqn:E; simpl in Hl; try lia.
  reflexivity.
Qed.

Lemma kernel_weighted_summaries_raise_witness :
  (2 <= length ([Fin 1] ++ [Fin 1]))%nat
  /\ from_summaries
       (summarize_batches
          (KernelDensity GaussianKernel ([Fin 0], Fin 1, [Fin 1]) None false)
          [(numbers [1], WList [Fin 1]); (numbers [2], WList [Fin 1])]) None
     = (KernelDensity GaussianKernel ([Fin 0], Fin 1, [Fin 1])
          (Some (numbers [1] ++ numbers [2], WArray ([Fin 1] ++ [Fin 1]))) false,
        Some ValueError).
Proof.
  split; [simpl; lia|].
  apply (kernel_weighted_summaries_raise GaussianKernel
           ([Fin 0], Fin 1, [Fin 1]) [1] [2] [Fin 1] [Fin 1]).
  simpl. lia.
Defined.

(** *** The support of the uniform and triangle kernels *)

Lemma far_point_adds_nothing (shape : kernel) (bw mu x : R) :
  shape <> GaussianKernel -> bw < Rabs (mu - x) ->
  exists z, KernelDensity.point_prob shape (Fin bw) (Fin mu) (Fin x) = Ok (Fin z)
            /\ z = 0.
Proof.
  intros Hs Hfar. destruct shape; [contradiction| |].
  - exists 0. split; [|reflexivity]. cbn.
    unfold leb, ltb, eqb. rewrite Rltb_false, Reqb_false by (unfold Rminus in Hfar; lra).
    reflexivity.
  - exists 0. split; [|reflexivity]. cbn.
    rewrite Rltb_true by (unfold Rminus in Hfar; lra). reflexivity.
Qed.



(** ** Multivariate distributions *)

Lemma mul_one (x : double) : (x * Fin 1)%D = x.
Proof.
  destruct x as [a| | |]; cbn; try reflexivity.
  - apply Fin_eq. lra.
  - unfold scale_inf. rewrite Rltb_true by lra. reflexivity.
  - unfold scale_inf. rewrite Rltb_true by lra. reflexivity.
Qed.

Lemma add_zero (x : double) : (Fin 0 + x)%D = x.
Proof. destruct x as [a| | |]; cbn; try reflexivity. apply Fin_eq. lra. Qed.

(** The log-probability of a tuple under two independent components with
    the default weights is the sum of the log-probabilities of its
    components; a tuple with one component only is scored by the first
    child alone. *)
Theorem multivariate_log_probability_is_sum (d0 d1 : Distribution)
    (x0 x1 : value) (l0 l1 : double) :
  log_probability d0 x0 = Ok l0 ->
  log_probability d1 x1 = Ok l1 ->
  (m <- MultivariateDistribution.__init__ [d0; d1] WNone None ;;
   log_probability m (VTuple [x0; x1])) = Ok (l0 + l1)%D
  /\ (m <- MultivariateDistribution.__init__ [d0; d1] WNone None ;;
      log_probability m (VTuple [x0])) = Ok l0.
Proof.
  intros H0 H1. unfold MultivariateDistribution.__init__.
  cbn [truth bind length numpy.ones repeat log_probability
       MultivariateDistribution.components
       MultivariateDistribution.weighted_sum].
  rewrite H0. cbn [bind MultivariateDistribution.weighted_sum].
  rewrite H1. cbn [bind MultivariateDistribution.weighted_sum].
  rewrite !mul_one, !add_zero. split; reflexivity.
Qed.

Lemma multivariate_log_probability_is_sum_witness :
  log_probability coin (VSym "A") = Ok (Fin (ln (1 / 2)))
  /\ log_probability coin (VSym "C") = Ok NEGINF
  /\ ((m <- MultivariateDistribution.__init__ [coin; coin] WNone None ;;
       log_probability m (VTuple [VSym "A"; VSym "C"]))
      = Ok (Fin (ln (1 / 2)) + NEGINF)%D
      /\ (m <- MultivariateDistribution.__init__ [coin; coin] WNone None ;;
          log_probability m (VTuple [VSym "A"])) = Ok (Fin (ln (1 / 2)))).
Proof.
  assert (H0 : log_probability coin (VSym "A") = Ok (Fin (ln (1 / 2))))
    by (evaluate; reflexivity).
  assert (H1 : log_probability coin (VSym "C") = Ok NEGINF)
    by (evaluate; reflexivity).
  split; [exact H0|]. split; [exact H1|].
  exact (multivariate_log_probability_is_sum coin coin (VSym "A") (VSym "C")
           _ _ H0 H1).
Defined.

(** The loop over the children, when it ends without an exception, has
    called each child once with its own column. *)
Lemma each_column_independent
    (on_column : Distribution -> list value -> Distribution * outcome)
    (items : list value) (ds : list Distribution) :
  forall i0 ds',
  MultivariateDistribution.each_column on_column i0 ds items = (ds', None) ->
  forall i d, nth_error ds i = Some d ->
  exists col,
    MultivariateDistribution.column (i0 + i) items = Ok col
    /\ nth_error ds' i = Some (fst (on_column d col)).
Proof.
  induction ds as [|d0 ds IH]; intros i0 ds' H i d Hd.
  - destruct i; discriminate.
  - cbn [MultivariateDistribution.each_column] in H.
    destruct (MultivariateDistribution.column i0 items) as [col|e] eqn:Ec;
      [|discriminate].
    destruct (on_column d0 col) as [d0' o] eqn:E0.
    destruct o as [e|]; [discriminate|].
    destruct (MultivariateDistribution.each_column on_column (S i0) ds items)
      as [rest' o'] eqn:Er.
    injection H as <- ->.
    destruct i as [|i].
    + injection Hd as <-. exists col. rewrite Nat.add_0_r, E0.
      split; [exact Ec | reflexivity].
    + destruct (IH (S i0) rest' Er i d Hd) as (c & Hc & Hn).
      exists c. rewrite <- plus_n_Sm. split; [exact Hc | exact Hn].
Qed.



(** ** summarize and the parameters *)

(** summarize assigns [summaries] only: on every distribution that is not
    a multivariate one it leaves the parameters and the frozen flag alone,
    whatever it is given and whether or not it raises; and it does not
    look at the frozen flag. *)
Theorem summarize_keeps_parameters (d : Distribution) (items : list value)
    (weights : wopt) :
  match d with Multivariate _ _ _ => False | _ => True end ->
  parameters (fst (summarize d items weights)) = parameters d
  /\ frozen (fst (summarize d items weights)) = frozen d
  /\ summarize (set_frozen true d) items weights
     = (set_frozen true (fst (summarize d items weights)),
        snd (summarize d items weights)).
Proof.
  intros Hd.
  destruct d as [p s f|p s f|p s f|p f|p s f|p s f|p f|k p s f|ds w f|ds w f];
    try contradiction; cbn [summarize set_frozen].
  - destruct (UniformDistribution.summarize s items weights); repeat split.
  - destruct (NormalDistribution.summarize s items weights); repeat split.
  - destruct (LogNormalDistribution.summarize s items weights); repeat split.
  - repeat split.
  - destruct (ExponentialDistribution.summarize s items weights); repeat split.
  - repeat split.
  - repeat split.
  - destruct (Base.summarize s items weights); repeat split.
  - repeat split.
Qed.

Lemma summarize_keeps_parameters_witness :
  match standard_normal with Multivariate _ _ _ => False | _ => True end
  /\ (parameters (fst (summarize standard_normal [VNum 1] WNone))
      = parameters standard_normal
      /\ frozen (fst (summarize standard_normal [VNum 1] WNone))
         = frozen standard_normal
      /\ summarize (set_frozen true standard_normal) [VNum 1] WNone
         = (set_frozen true (fst (summarize standard_normal [VNum 1] WNone)),
            snd (summarize standard_normal [VNum 1] WNone))).
Proof.
  split; [exact I|].
  exact (summarize_keeps_parameters standard_normal [VNum 1] WNone I).
Defined.

(** ** from_summaries twice *)

(** On a normal, a log-normal and an exponential distribution a
    from_summaries that returned normally has emptied the summaries, so
    that a second from_summaries changes nothing. *)
Theorem from_summaries_twice (d : Distribution) (i i' : option double) :
  match d with
  | Normal _ _ _ | LogNormal _ _ _ | Exponential _ _ _ => True
  | _ => False
  end ->
  snd (from_summaries d i) = None ->
  from_summaries (fst (from_summaries d i)) i' = (fst (from_summaries d i), None).
Proof.
  intros Hd.
  destruct d as [p s f|p s f|p s f|p f|p s f|p s f|p f|k p s f|ds w f|ds w f];
    try contradiction; cbn [from_summaries].
  - unfold NormalDistribution.from_summaries.
    destruct (Nat.eqb (length s) 0 || f) eqn:E.
    + cbn. unfold NormalDistribution.from_summaries. rewrite E. reflexivity.
    + destruct (merge_summaries p s _); [|discriminate]. reflexivity.
  - unfold LogNormalDistribution.from_summaries.
    destruct (Nat.eqb (length s) 0 || f) eqn:E.
    + cbn. unfold LogNormalDistribution.from_summaries. rewrite E. reflexivity.
    + destruct (merge_summaries p s _); [|discriminate]. reflexivity.
  - unfold ExponentialDistribution.from_summaries.
    destruct (Nat.eqb (length s) 0 || f) eqn:E.
    + cbn. unfold ExponentialDistribution.from_summaries. rewrite E. reflexivity.
    + destruct (numpy.average _ _); [|discriminate]. reflexivity.
Qed.

(** ** copy of a scalar distribution *)

(** The copy of a scalar parametric distribution has the parameters of the
    original and scores every symbol as the original does. *)
Theorem copy_scalar_same_density (d : Distribution) :
  scalar_parametric d = true ->
  exists c, copy d = Ok c
            /\ parameters c = parameters d
            /\ forall symbol, log_probability c symbol = log_probability d symbol.
Proof.
  intros H.
  destruct d as [[a b] s f|[m sd] s f|[m sd] s f|[[m sd] e] f|r s f|c s f|g f
                 |k p s f|ds w f|ds w f];
    simpl in H; try discriminate; eexists; repeat split.
Qed.

Lemma copy_scalar_same_density_witness :
  scalar_parametric coin = true
  /\ exists c, copy coin = Ok c
               /\ parameters c = parameters coin
               /\ forall symbol, log_probability c symbol = log_probability coin symbol.
Proof.
  split; [reflexivity|].
  exact (copy_scalar_same_density coin eq_refl).
Defined.

Lemma from_summaries_twice_witness :
  match Normal (Fin 0, Fin 1) [(Fin 5, Fin 0, Fin 1)] false with
  | Normal _ _ _ | LogNormal _ _ _ | Exponential _ _ _ => True
  | _ => False
  end
  /\ snd (from_summaries (Normal (Fin 0, Fin 1) [(Fin 5, Fin 0, Fin 1)] false) None)
     = None
  /\ from_summaries
       (fst (from_summaries (Normal (Fin 0, Fin 1) [(Fin 5, Fin 0, Fin 1)] false)
               None)) None
     = (fst (from_summaries (Normal (Fin 0, Fin 1) [(Fin 5, Fin 0, Fin 1)] false)
               None), None).
Proof.
  assert (H : snd (from_summaries
                     (Normal (Fin 0, Fin 1) [(Fin 5, Fin 0, Fin 1)] false) None)
              = None) by (evaluate; reflexivity).
  split; [exact I|]. split; [exact H|].
  exact (from_summaries_twice
           (Normal (Fin 0, Fin 1) [(Fin 5, Fin 0, Fin 1)] false) None None I H).
Defined.

(** ** Instances of the lemmas on fitting *)


Lemma fit_mean_std_floor_witness :
  Nat.ltb 1 (numpy.count_nonzero (floats [1; 1])) = true
  /\ fit_mean_std (Fin 0, Fin 1) (floats [1; 3]) (floats [1; 1]) (Fin 0)
       (Fin (1 / 100))
     = Ok (Fin (weighted_mean [1; 3] [1; 1]),
           Fin (Rmax (sqrt (weighted_variance [1; 3] [1; 1])) (1 / 100)))
  /\ (Fin (Rmax (sqrt (weighted_variance [1; 3] [1; 1])) (1 / 100))
      >=? Fin (1 / 100))%D = true.
Proof.
  assert (H : fit_mean_std (Fin 0, Fin 1) (floats [1; 3]) (floats [1; 1]) (Fin 0)
                (Fin (1 / 100))
              = Ok (Fin (weighted_mean [1; 3] [1; 1]),
                    Fin (Rmax (sqrt (weighted_variance [1; 3] [1; 1])) (1 / 100)))).
  { apply fit_mean_std_closed_form;
      [reflexivity | simpl; lra | exact count_nonzero_ones2]. }
  split; [exact count_nonzero_ones2|]. split; [exact H|].
  exact (fit_mean_std_floor (Fin 0) 1 (1 / 100) (floats [1; 3]) (floats [1; 1])
           _ _ count_nonzero_ones2 H).
Defined.

Lemma from_summaries_nothing_accumulated_witness :
  match standard_normal with
  | Normal _ [] _ | LogNormal _ [] _ | Exponential _ [] _ => True
  | _ => False
  end
  /\ from_summaries standard_normal None = (standard_normal, None).
Proof.
  split; [exact I|].
  exact (from_summaries_nothing_accumulated standard_normal None I).
Defined.

Lemma from_sample_weights_sum_to_zero_witness :
  match standard_normal with
  | Normal _ _ _ | LogNormal _ _ _ | Exponential _ _ _ => True
  | _ => False
  end
  /\ (numpy.sum [Fin 0; Fin 0] =? 0)%D = true
  /\ fst (from_sample standard_normal [VNum 1; VNum 2] (WList [Fin 0; Fin 0])
            None None) = standard_normal.
Proof.
  assert (H : (numpy.sum [Fin 0; Fin 0] =? 0)%D = true) by (evaluate; reflexivity).
  split; [exact I|]. split; [exact H|].
  exact (from_sample_weights_sum_to_zero standard_normal [VNum 1; VNum 2]
           [Fin 0; Fin 0] None None I H).
Defined.

Lemma uniform_from_sample_no_positive_weight_witness :
  Forall (fun x => (x >? 0)%D = false) [Fin 0; Fin (-1)]
  /\ from_sample (Uniform (Fin 0, Fin 1) [] false) [VNum 5; VNum 7]
       (WList [Fin 0; Fin (-1)]) None None
     = (Uniform (Fin 0, Fin 1) [] false, None).
Proof.
  assert (H : Forall (fun x => (x >? 0)%D = false) [Fin 0; Fin (-1)]).
  { repeat constructor; evaluate; reflexivity. }
  split; [exact H|].
  exact (uniform_from_sample_no_positive_weight (Fin 0, Fin 1) [] false
           [VNum 5; VNum 7] [Fin 0; Fin (-1)] None H).
Defined.

